(** * Application endpoint registration: the schema and validation layer

    A shallow embedding of [app/models/application_endpoint.py] (the
    pydantic models [ApplicationEndpoint] and [ApplicationEndpointsInfo])
    and of the route handlers of
    [app/api/endpoints/application_endpoint_registration.py].

    pydantic construction is modelled as it runs for a [BaseModel]:
    every field is looked up in the input mapping (by alias first, then by
    field name, since [populate_by_name=True]), a missing optional field
    takes its default, each present field is validated by its own type and
    the field errors of all fields are collected; only when no field fails
    is [model_post_init] run on the built instance.  A [ValueError] raised
    there is reported by pydantic as a validation error of type
    [value_error]. *)

From Stdlib Require Import String Ascii List ZArith Bool Lia.
Set Warnings "-register-all".
Import ListNotations.
Open Scope string_scope.
Open Scope Z_scope.

(** ** Validation results *)

(** One entry of a pydantic [ValidationError]: the location (the field
    alias, or nothing for a model-level error), the error type and the
    message. *)
Inductive loc_item := LKey (k : string) | LIdx (i : nat).

Record line_error := mk_line_error {
  err_loc : list loc_item;
  err_type : string;
  err_msg : string
}.

Inductive result (A : Type) :=
| Ok (a : A)
| ValidationError (errs : list line_error).
Arguments Ok {A} a.
Arguments ValidationError {A} errs.

(** Field errors are collected over all the fields of a model. *)
Definition both {A B} (ra : result A) (rb : result B) : result (A * B) :=
  match ra, rb with
  | Ok a, Ok b => Ok (a, b)
  | Ok _, ValidationError e => ValidationError e
  | ValidationError e, Ok _ => ValidationError e
  | ValidationError e1, ValidationError e2 => ValidationError (e1 ++ e2)
  end.

Definition map_result {A B} (f : A -> B) (r : result A) : result B :=
  match r with
  | Ok a => Ok (f a)
  | ValidationError e => ValidationError e
  end.

Definition prefix_loc {A} (l : loc_item) (r : result A) : result A :=
  match r with
  | Ok a => Ok a
  | ValidationError e =>
      ValidationError
        (map (fun x => mk_line_error (l :: err_loc x) (err_type x) (err_msg x)) e)
  end.

Definition is_ok {A} (r : result A) : bool :=
  match r with Ok _ => true | ValidationError _ => false end.

(** ** Scalar value types

    Modelled from the spec: [app/models/basic_types.py] is not among the
    sources; the tests build each of its scalar types as a model with one
    field [value] ([DomainName(value=...)], [EdgeCloudZoneName(value=...)]),
    and so do [Port] and [SingleIpv4Addr] of [CamaraCommon.Network]. *)

Record DomainName := mkDomainName { domain_name_value : string }.
Record SingleIpv4Addr := mkSingleIpv4Addr { ipv4_value : string }.
Record SingleIpv6Addr := mkSingleIpv6Addr { ipv6_value : string }.
Record Port := mkPort { port_value : Z }.
(** A UUID is held as its 128-bit integer, as Python's [uuid.UUID]. *)
Record ApplicationProfileId := mkApplicationProfileId { profile_id_value : Z }.
Record EdgeCloudZoneId := mkEdgeCloudZoneId { zone_id_value : Z }.
Record EdgeCloudZoneName := mkEdgeCloudZoneName { zone_name_value : string }.
Record EdgeCloudProvider := mkEdgeCloudProvider { provider_value : string }.
Record EdgeCloudRegion := mkEdgeCloudRegion { region_value : string }.

Inductive EdgeCloudZoneStatus := ACTIVE | INACTIVE | UNKNOWN.

Definition status_value (s : EdgeCloudZoneStatus) : string :=
  match s with ACTIVE => "active" | INACTIVE => "inactive" | UNKNOWN => "unknown" end.

(** Modelled from the spec: [EdgeCloudZone] of [basic_types.py]
    (id, name, provider required; region optional; status defaults to
    unknown). *)
Record EdgeCloudZone := mkEdgeCloudZone {
  edge_cloud_zone_id : EdgeCloudZoneId;
  edge_cloud_zone_name : EdgeCloudZoneName;
  edge_cloud_provider : EdgeCloudProvider;
  edge_cloud_region : option EdgeCloudRegion;
  edge_cloud_zone_status : EdgeCloudZoneStatus
}.

(** ** The models of [application_endpoint.py] *)

Record ApplicationEndpoint := mkApplicationEndpoint {
  domain_name : option DomainName;
  ipv4_address : option SingleIpv4Addr;
  ipv6_address : option SingleIpv6Addr;
  port : Port;
  edge_cloud_zone : option EdgeCloudZone;
  application_endpoint_description : option string
}.

Record ApplicationEndpointsInfo := mkApplicationEndpointsInfo {
  application_endpoints : list ApplicationEndpoint;
  application_provider_name : string;
  application_description : option string;
  application_profile_id : ApplicationProfileId
}.

(** ** Raw input

    What a model constructor receives: Python values as they come from
    keyword arguments, a dict or decoded JSON.  [RUuid] is a [uuid.UUID]
    object (what [model_dump] leaves in place of a UUID field) and
    [REndpoint] an already built [ApplicationEndpoint] instance, which
    pydantic keeps as it is ([revalidate_instances='never']). *)
Inductive raw :=
| RNone
| RStr (s : string)
| RInt (z : Z)
| RUuid (n : Z)
| RList (l : list raw)
| RObj (fields : list (string * raw))
| REndpoint (e : ApplicationEndpoint).

Fixpoint lookup_key (k : string) (fs : list (string * raw)) : option raw :=
  match fs with
  | [] => None
  | (k', v) :: fs' => if String.eqb k k' then Some v else lookup_key k fs'
  end.

(** Field lookup of a model with [populate_by_name=True]: the alias
    first, then the field name. *)
Definition lookup_field (alias name : string) (fs : list (string * raw)) : option raw :=
  match lookup_key alias fs with
  | Some v => Some v
  | None => lookup_key name fs
  end.

(** The same lookup, also giving the key under which the value was found:
    with [loc_by_alias] pydantic locates a field's errors at that key. *)
Definition lookup_field_at (alias name : string) (fs : list (string * raw))
  : option (string * raw) :=
  match lookup_key alias fs with
  | Some v => Some (alias, v)
  | None =>
      match lookup_key name fs with
      | Some v => Some (name, v)
      | None => None
      end
  end.

(** Modelled from the spec: the [DomainName] rule of [basic_types.py]
    (length 4 to 253, at least two dot-separated labels, each label
    [[A-Za-z0-9]([A-Za-z0-9-]{0,61}[A-Za-z0-9])?]). *)
Definition is_alnum (c : ascii) : bool :=
  let n := nat_of_ascii c in
  (Nat.leb 48 n && Nat.leb n 57) || (Nat.leb 65 n && Nat.leb n 90)
  || (Nat.leb 97 n && Nat.leb n 122).

Definition label_ok (l : list ascii) : bool :=
  match l with
  | [] => false
  | c :: _ =>
      is_alnum c && is_alnum (last l c)
      && forallb (fun d => is_alnum d || Ascii.eqb d "-"%char) l
      && Nat.leb (length l) 63
  end.

Fixpoint split_dots (s : string) : list (list ascii) :=
  match s with
  | EmptyString => [[]]
  | String c s' =>
      let rest := split_dots s' in
      if Ascii.eqb c "."%char then [] :: rest
      else match rest with
           | [] => [[c]]
           | l :: ls => (c :: l) :: ls
           end
  end.

Definition domain_name_ok (s : string) : bool :=
  Nat.leb 4 (String.length s) && Nat.leb (String.length s) 253
  && Nat.leb 2 (length (split_dots s)) && forallb label_ok (split_dots s).

Definition port_ok (z : Z) : bool := (0 <=? z) && (z <=? 65535).

(** Modelled from the spec: the non-empty rule of [EdgeCloudZoneName],
    [EdgeCloudProvider] and [EdgeCloudRegion]. *)
Definition non_empty (s : string) : bool := negb (String.eqb s "").

Definition exactly_one_message : string :=
  "Value error, Exactly one of domain_name, ipv4_address, or ipv6_address must be provided".

Definition err {A} (loc : list loc_item) (ty msg : string) : result A :=
  ValidationError [mk_line_error loc ty msg].

(** ** Validation of fields and models

    The literal syntax of IPv4 and IPv6 addresses (from [CamaraCommon])
    and the string form of a UUID (parsed by pydantic into [uuid.UUID])
    come from outside this repository; they are parameters here, so every
    result below holds whatever these checks accept. *)
Section Validation.

Variable ipv4_ok : string -> bool.
Variable ipv6_ok : string -> bool.
Variable parse_uuid : string -> option Z.

Definition validate_str (r : raw) : result string :=
  match r with
  | RStr s => Ok s
  | _ => err [] "string_type" "Input should be a valid string"
  end.

Definition validate_checked_str (ok : string -> bool) (r : raw) : result string :=
  match r with
  | RStr s => if ok s then Ok s else err [] "value_error" "Value error, invalid format"
  | _ => err [] "string_type" "Input should be a valid string"
  end.

Definition validate_int_port (r : raw) : result Z :=
  match r with
  | RInt z =>
      if 0 <=? z then
        if z <=? 65535 then Ok z
        else err [] "less_than_equal" "Input should be less than or equal to 65535"
      else err [] "greater_than_equal" "Input should be greater than or equal to 0"
  | _ => err [] "int_type" "Input should be a valid integer"
  end.

Definition validate_uuid (r : raw) : result Z :=
  match r with
  | RUuid n => Ok n
  | RStr s =>
      match parse_uuid s with
      | Some n => Ok n
      | None => err [] "uuid_parsing" "Input should be a valid UUID"
      end
  | _ => err [] "uuid_type" "UUID input should be a string, bytes or UUID object"
  end.

(** A single-field model [X(value=...)], validated from a mapping. *)
Definition validate_value_model {A B} (mk : A -> B) (check : raw -> result A)
    (r : raw) : result B :=
  match r with
  | RObj fs =>
      match lookup_key "value" fs with
      | Some v => map_result mk (prefix_loc (LKey "value") (check v))
      | None => err [LKey "value"] "missing" "Field required"
      end
  | _ => err [] "model_type" "Input should be a valid dictionary or instance of the model"
  end.

(** A required field: missing is an error, located at the alias; the
    errors of a value are located at the key it was given under. *)
Definition required_field {A} (alias name : string) (fs : list (string * raw))
    (v : raw -> result A) : result A :=
  match lookup_field_at alias name fs with
  | Some (k, r) => prefix_loc (LKey k) (v r)
  | None => err [LKey alias] "missing" "Field required"
  end.

(** An optional field [X | None = default]: missing gives the default,
    an explicit [None] gives [None]. *)
Definition optional_field {A} (alias name : string) (fs : list (string * raw))
    (v : raw -> result A) : result (option A) :=
  match lookup_field_at alias name fs with
  | None => Ok None
  | Some (_, RNone) => Ok None
  | Some (k, r) => prefix_loc (LKey k) (map_result Some (v r))
  end.

(** Modelled from the spec: [EdgeCloudZoneStatus] is a closed enum whose
    absence resolves to [UNKNOWN]. *)
Definition validate_status (r : raw) : result EdgeCloudZoneStatus :=
  match r with
  | RStr s =>
      if String.eqb s "active" then Ok ACTIVE
      else if String.eqb s "inactive" then Ok INACTIVE
      else if String.eqb s "unknown" then Ok UNKNOWN
      else err [] "enum" "Input should be 'active', 'inactive' or 'unknown'"
  | _ => err [] "enum" "Input should be 'active', 'inactive' or 'unknown'"
  end.

Definition status_field (fs : list (string * raw)) : result EdgeCloudZoneStatus :=
  match lookup_field_at "edgeCloudZoneStatus" "edge_cloud_zone_status" fs with
  | None => Ok UNKNOWN
  | Some (k, r) => prefix_loc (LKey k) (validate_status r)
  end.

(** Modelled from the spec: validation of an [EdgeCloudZone] mapping,
    which accepts its wire names and its field names alike. *)
Definition validate_EdgeCloudZone (r : raw) : result EdgeCloudZone :=
  match r with
  | RObj fs =>
      match both (required_field "edgeCloudZoneId" "edge_cloud_zone_id" fs
                    (validate_value_model mkEdgeCloudZoneId validate_uuid))
           (both (required_field "edgeCloudZoneName" "edge_cloud_zone_name" fs
                    (validate_value_model mkEdgeCloudZoneName (validate_checked_str non_empty)))
           (both (required_field "edgeCloudProvider" "edge_cloud_provider" fs
                    (validate_value_model mkEdgeCloudProvider (validate_checked_str non_empty)))
           (both (optional_field "edgeCloudRegion" "edge_cloud_region" fs
                    (validate_value_model mkEdgeCloudRegion (validate_checked_str non_empty)))
                 (status_field fs)))) with
      | Ok (i, (n, (p, (rg, st)))) => Ok (mkEdgeCloudZone i n p rg st)
      | ValidationError e => ValidationError e
      end
  | _ => err [] "model_type" "Input should be a valid dictionary or instance of EdgeCloudZone"
  end.

(** [ApplicationEndpoint.validate_address_fields], a [mode="before"]
    field validator of the three address fields: it returns its input. *)
Definition validate_address_fields (v : raw) : raw := v.

Definition validate_DomainName (r : raw) : result DomainName :=
  validate_value_model mkDomainName (validate_checked_str domain_name_ok)
    (validate_address_fields r).

Definition validate_SingleIpv4Addr (r : raw) : result SingleIpv4Addr :=
  validate_value_model mkSingleIpv4Addr (validate_checked_str ipv4_ok)
    (validate_address_fields r).

Definition validate_SingleIpv6Addr (r : raw) : result SingleIpv6Addr :=
  validate_value_model mkSingleIpv6Addr (validate_checked_str ipv6_ok)
    (validate_address_fields r).

Definition validate_Port (r : raw) : result Port :=
  validate_value_model mkPort validate_int_port r.

(** Phase one of [ApplicationEndpoint] called with the keywords [fs]: the six fields, each by its
    own type, errors collected. *)
Definition ApplicationEndpoint_fields (fs : list (string * raw))
  : result (option DomainName * (option SingleIpv4Addr * (option SingleIpv6Addr
           * (Port * (option EdgeCloudZone * option string))))) :=
  both (optional_field "domainName" "domain_name" fs validate_DomainName)
  (both (optional_field "ipv4Address" "ipv4_address" fs validate_SingleIpv4Addr)
  (both (optional_field "ipv6Address" "ipv6_address" fs validate_SingleIpv6Addr)
  (both (required_field "port" "port" fs validate_Port)
  (both (optional_field "edgeCloudZone" "edge_cloud_zone" fs validate_EdgeCloudZone)
        (optional_field "applicationEndpointDescription"
           "application_endpoint_description" fs validate_str))))).

End Validation.

(** [ApplicationEndpoint.model_post_init]: the list [address_fields] and
    its sum. *)
Definition address_fields (self : ApplicationEndpoint) : list bool :=
  [ match domain_name self with Some _ => true | None => false end;
    match ipv4_address self with Some _ => true | None => false end;
    match ipv6_address self with Some _ => true | None => false end ].

Definition sum_bools (l : list bool) : nat :=
  fold_left (fun acc b => (acc + Nat.b2n b)%nat) l 0%nat.

(** The [ValueError] message raised, if any. *)
Definition model_post_init (self : ApplicationEndpoint) : option string :=
  if negb (Nat.eqb (sum_bools (address_fields self)) 1) then
    Some "Exactly one of domain_name, ipv4_address, or ipv6_address must be provided"
  else None.

Section Construction.

Variable ipv4_ok : string -> bool.
Variable ipv6_ok : string -> bool.
Variable parse_uuid : string -> option Z.

(** [ApplicationEndpoint] called with the keywords [fs]: the fields first, then [model_post_init]
    on the built instance; its [ValueError] becomes a [value_error]. *)
Definition construct_ApplicationEndpoint (fs : list (string * raw))
  : result ApplicationEndpoint :=
  match ApplicationEndpoint_fields ipv4_ok ipv6_ok parse_uuid fs with
  | Ok (d, (v4, (v6, (p, (z, desc))))) =>
      let self := mkApplicationEndpoint d v4 v6 p z desc in
      match model_post_init self with
      | None => Ok self
      | Some msg => err [] "value_error" ("Value error, " ++ msg)
      end
  | ValidationError e => ValidationError e
  end.

(** A value for a field of type [ApplicationEndpoint]: an instance is
    kept, a mapping is validated as by the constructor. *)
Definition validate_ApplicationEndpoint (r : raw) : result ApplicationEndpoint :=
  match r with
  | REndpoint e => Ok e
  | RObj fs => construct_ApplicationEndpoint fs
  | _ => err [] "model_type"
           "Input should be a valid dictionary or instance of ApplicationEndpoint"
  end.

Fixpoint validate_endpoints_from (i : nat) (l : list raw)
  : result (list ApplicationEndpoint) :=
  match l with
  | [] => Ok []
  | r :: l' =>
      map_result (fun p => fst p :: snd p)
        (both (prefix_loc (LIdx i) (validate_ApplicationEndpoint r))
              (validate_endpoints_from (S i) l'))
  end.

(** [list[ApplicationEndpoint]]: element by element, in order. *)
Definition validate_endpoint_list (r : raw) : result (list ApplicationEndpoint) :=
  match r with
  | RList l => validate_endpoints_from 0 l
  | _ => err [] "list_type" "Input should be a valid list"
  end.

Definition validate_ApplicationProfileId (r : raw) : result ApplicationProfileId :=
  validate_value_model mkApplicationProfileId (validate_uuid parse_uuid) r.

(** [ApplicationEndpointsInfo] called with the keywords [fs]; the model has no cross-field rule. *)
Definition construct_ApplicationEndpointsInfo (fs : list (string * raw))
  : result ApplicationEndpointsInfo :=
  match both (required_field "applicationEndpoints" "application_endpoints" fs
                validate_endpoint_list)
       (both (required_field "applicationProviderName" "application_provider_name" fs
                validate_str)
       (both (optional_field "applicationDescription" "application_description" fs
                validate_str)
             (required_field "applicationProfileId" "application_profile_id" fs
                validate_ApplicationProfileId))) with
  | Ok (es, (pn, (d, pid))) => Ok (mkApplicationEndpointsInfo es pn d pid)
  | ValidationError e => ValidationError e
  end.

End Construction.

(** ** [model_dump]: Python mode, keyed by field names

    Nested models become mappings, UUIDs stay [uuid.UUID] objects, the
    status enum is given by its value and unset optional fields appear as
    [None]. *)

Definition dump_opt {A} (f : A -> raw) (o : option A) : raw :=
  match o with Some a => f a | None => RNone end.

Definition dump_EdgeCloudZone (z : EdgeCloudZone) : raw :=
  RObj [("edge_cloud_zone_id", RObj [("value", RUuid (zone_id_value (edge_cloud_zone_id z)))]);
        ("edge_cloud_zone_name", RObj [("value", RStr (zone_name_value (edge_cloud_zone_name z)))]);
        ("edge_cloud_provider", RObj [("value", RStr (provider_value (edge_cloud_provider z)))]);
        ("edge_cloud_region",
           dump_opt (fun rg => RObj [("value", RStr (region_value rg))]) (edge_cloud_region z));
        ("edge_cloud_zone_status", RStr (status_value (edge_cloud_zone_status z)))].

Definition model_dump_ApplicationEndpoint (e : ApplicationEndpoint) : list (string * raw) :=
  [("domain_name", dump_opt (fun d => RObj [("value", RStr (domain_name_value d))]) (domain_name e));
   ("ipv4_address", dump_opt (fun a => RObj [("value", RStr (ipv4_value a))]) (ipv4_address e));
   ("ipv6_address", dump_opt (fun a => RObj [("value", RStr (ipv6_value a))]) (ipv6_address e));
   ("port", RObj [("value", RInt (port_value (port e)))]);
   ("edge_cloud_zone", dump_opt dump_EdgeCloudZone (edge_cloud_zone e));
   ("application_endpoint_description", dump_opt RStr (application_endpoint_description e))].

Definition model_dump_ApplicationEndpointsInfo (i : ApplicationEndpointsInfo)
  : list (string * raw) :=
  [("application_endpoints",
      RList (map (fun e => RObj (model_dump_ApplicationEndpoint e)) (application_endpoints i)));
   ("application_provider_name", RStr (application_provider_name i));
   ("application_description", dump_opt RStr (application_description i));
   ("application_profile_id", RObj [("value", RUuid (profile_id_value (application_profile_id i)))])].

(** ** Route handlers of [application_endpoint_registration.py]

    A handler runs on a store of registrations [S] (the code has none; the
    store is a parameter so that "no state change" can be stated) and
    either returns or raises an [HTTPException]. *)

Record HTTPException := mkHTTPException { status_code : Z; detail : string }.

Inductive outcome (A : Type) :=
| Return (a : A)
| Raise (e : HTTPException).
Arguments Return {A} a.
Arguments Raise {A} e.

Definition HTTP_501_NOT_IMPLEMENTED : Z := 501.

Record RegisterApplicationEndpointsRequest := mkRegisterApplicationEndpointsRequest {
  register_application_endpoints_info : ApplicationEndpointsInfo }.
Record UpdateApplicationEndpointRequest := mkUpdateApplicationEndpointRequest {
  update_application_endpoints_info : ApplicationEndpointsInfo }.
Record ApplicationEndpointListId := mkApplicationEndpointListId { list_id_value : Z }.
Record RegisterApplicationEndpointsResponse := mkRegisterApplicationEndpointsResponse {
  application_endpoint_list_id : ApplicationEndpointListId }.
Record RegisterApplicationEndpointsApiResponse := mkRegisterApplicationEndpointsApiResponse {
  api_x_correlator : option string;
  data : RegisterApplicationEndpointsResponse }.

Section Handlers.

Variable S : Type.

(** [POST /application-endpoint-lists] *)
Definition register_application_endpoints (st : S)
    (request : RegisterApplicationEndpointsRequest) (x_correlator : option string)
  : outcome RegisterApplicationEndpointsApiResponse * S :=
  (Raise (mkHTTPException HTTP_501_NOT_IMPLEMENTED
            "Application endpoint registration not yet implemented"), st).

(** [PUT /application-endpoint-lists/{application_endpoint_list_id}] *)
Definition update_application_endpoint (st : S) (application_endpoint_list_id : Z)
    (request : UpdateApplicationEndpointRequest) (x_correlator : option string)
  : outcome unit * S :=
  (Raise (mkHTTPException HTTP_501_NOT_IMPLEMENTED
            "Update application endpoint not yet implemented"), st).

(** [DELETE /application-endpoint-lists/{application_endpoint_list_id}] *)
Definition deregister_application_endpoint (st : S) (application_endpoint_list_id : Z)
    (x_correlator : option string)
  : outcome unit * S :=
  (Raise (mkHTTPException HTTP_501_NOT_IMPLEMENTED
            "Deregister application endpoint not yet implemented"), st).

End Handlers.

(** ** Concrete instances of the external checks, to run examples

    A dotted-quad IPv4 check, a hexadecimal-and-colon IPv6 check and a
    parser of the hyphenated 8-4-4-4-12 UUID form. *)

Definition digit_val (c : ascii) : option Z :=
  let n := nat_of_ascii c in
  if Nat.leb 48 n && Nat.leb n 57 then Some (Z.of_nat n - 48) else None.

Definition hex_val (c : ascii) : option Z :=
  let n := nat_of_ascii c in
  if Nat.leb 48 n && Nat.leb n 57 then Some (Z.of_nat n - 48)
  else if Nat.leb 97 n && Nat.leb n 102 then Some (Z.of_nat n - 87)
  else if Nat.leb 65 n && Nat.leb n 70 then Some (Z.of_nat n - 55)
  else None.

Fixpoint decimal_of (acc : Z) (l : list ascii) : option Z :=
  match l with
  | [] => Some acc
  | c :: l' => match digit_val c with
               | Some d => decimal_of (acc * 10 + d) l'
               | None => None
               end
  end.

Definition octet_ok (l : list ascii) : bool :=
  Nat.leb 1 (length l) && Nat.leb (length l) 3
  && match decimal_of 0 l with Some v => v <=? 255 | None => false end.

Definition sample_ipv4_ok (s : string) : bool :=
  Nat.eqb (length (split_dots s)) 4 && forallb octet_ok (split_dots s).

Definition sample_ipv6_ok (s : string) : bool :=
  Nat.leb 2 (String.length s)
  && forallb (fun c => match hex_val c with Some _ => true | None => Ascii.eqb c ":"%char end)
       (list_ascii_of_string s)
  && existsb (fun c => Ascii.eqb c ":"%char) (list_ascii_of_string s).

Fixpoint hex_uuid (acc : Z) (pos : nat) (l : list ascii) : option Z :=
  match l with
  | [] => if Nat.eqb pos 36 then Some acc else None
  | c :: l' =>
      if Nat.eqb pos 8 || Nat.eqb pos 13 || Nat.eqb pos 18 || Nat.eqb pos 23 then
        if Ascii.eqb c "-"%char then hex_uuid acc (S pos) l' else None
      else match hex_val c with
           | Some d => hex_uuid (acc * 16 + d) (S pos) l'
           | None => None
           end
  end.

Definition sample_parse_uuid (s : string) : option Z :=
  hex_uuid 0 0 (list_ascii_of_string s).

Definition construct_endpoint : list (string * raw) -> result ApplicationEndpoint :=
  construct_ApplicationEndpoint sample_ipv4_ok sample_ipv6_ok sample_parse_uuid.
Definition construct_info : list (string * raw) -> result ApplicationEndpointsInfo :=
  construct_ApplicationEndpointsInfo sample_ipv4_ok sample_ipv6_ok sample_parse_uuid.

Definition val_obj (r : raw) : raw := RObj [("value", r)].

Definition zone_a : raw :=
  RObj [("edgeCloudZoneId", val_obj (RStr "123e4567-e89b-12d3-a456-426614174000"));
        ("edgeCloudZoneName", val_obj (RStr "ZoneA"));
        ("edgeCloudProvider", val_obj (RStr "ProviderA"));
        ("edgeCloudRegion", val_obj (RStr "us-west-1"));
        ("edgeCloudZoneStatus", RStr "active")].


(** ** Response models of [response_models.py] *)

Module ApplicationEndpointList.
Record t := mk {
  application_endpoint_list_id : ApplicationEndpointListId;
  application_endpoints_info : ApplicationEndpointsInfo
}.
End ApplicationEndpointList.

Section Envelopes.

Variable ipv4_ok : string -> bool.
Variable ipv6_ok : string -> bool.
Variable parse_uuid : string -> option Z.

(** A value for a field of type [ApplicationEndpointsInfo]. *)
Definition validate_ApplicationEndpointsInfo (r : raw) : result ApplicationEndpointsInfo :=
  match r with
  | RObj fs => construct_ApplicationEndpointsInfo ipv4_ok ipv6_ok parse_uuid fs
  | _ => err [] "model_type"
           "Input should be a valid dictionary or instance of ApplicationEndpointsInfo"
  end.

(** Modelled from the spec: [ApplicationEndpointListId] of
    [basic_types.py], a model whose [value] is a UUID. *)
Definition validate_ApplicationEndpointListId (r : raw) : result ApplicationEndpointListId :=
  validate_value_model mkApplicationEndpointListId (validate_uuid parse_uuid) r.

(** [ApplicationEndpointList] (and [GetApplicationEndpointsByIdResponse],
    which declares the same two fields). *)
Definition construct_ApplicationEndpointList (fs : list (string * raw))
  : result ApplicationEndpointList.t :=
  match both (required_field "applicationEndpointListId" "application_endpoint_list_id" fs
                validate_ApplicationEndpointListId)
             (required_field "applicationEndpointsInfo" "application_endpoints_info" fs
                validate_ApplicationEndpointsInfo) with
  | Ok (lid, info) => Ok (ApplicationEndpointList.mk lid info)
  | ValidationError e => ValidationError e
  end.

Definition validate_ApplicationEndpointList (r : raw) : result ApplicationEndpointList.t :=
  match r with
  | RObj fs => construct_ApplicationEndpointList fs
  | _ => err [] "model_type"
           "Input should be a valid dictionary or instance of ApplicationEndpointList"
  end.

End Envelopes.

(** A [list[X]]: element by element, errors located at the index. *)
Fixpoint validate_list_from {A} (v : raw -> result A) (i : nat) (l : list raw)
  : result (list A) :=
  match l with
  | [] => Ok []
  | r :: l' =>
      map_result (fun p => fst p :: snd p)
        (both (prefix_loc (LIdx i) (v r)) (validate_list_from v (S i) l'))
  end.

(** [GetApplicationEndpointsResponse], a [RootModel[list[ApplicationEndpointList]]]. *)
Definition validate_GetApplicationEndpointsResponse ipv4_ok ipv6_ok parse_uuid (r : raw)
  : result (list ApplicationEndpointList.t) :=
  match r with
  | RList l => validate_list_from
                 (validate_ApplicationEndpointList ipv4_ok ipv6_ok parse_uuid) 0 l
  | _ => err [] "list_type" "Input should be a valid list"
  end.

Definition model_dump_ApplicationEndpointList (x : ApplicationEndpointList.t)
  : list (string * raw) :=
  [("application_endpoint_list_id",
      RObj [("value", RUuid (list_id_value (ApplicationEndpointList.application_endpoint_list_id x)))]);
   ("application_endpoints_info",
      RObj (model_dump_ApplicationEndpointsInfo (ApplicationEndpointList.application_endpoints_info x)))].

(** A [RootModel] dumps to its root. *)
Definition model_dump_GetApplicationEndpointsResponse (l : list ApplicationEndpointList.t) : raw :=
  RList (map (fun x => RObj (model_dump_ApplicationEndpointList x)) l).

(** Inputs used by the examples below. *)
Definition sample_uuid : Z := 24249434048109030647017182301789831168.

Definition ep_domain_fs : list (string * raw) :=
  [("domainName", val_obj (RStr "app.example.com")); ("port", val_obj (RInt 8080))].

Definition ep_domain : ApplicationEndpoint :=
  mkApplicationEndpoint (Some (mkDomainName "app.example.com")) None None (mkPort 8080)
    None None.

Definition ep_ipv4_fs : list (string * raw) :=
  [("ipv4_address", val_obj (RStr "192.168.1.10")); ("port", val_obj (RInt 443));
   ("edge_cloud_zone", zone_a)].

Definition ep_ipv4 : ApplicationEndpoint :=
  mkApplicationEndpoint None (Some (mkSingleIpv4Addr "192.168.1.10")) None (mkPort 443)
    (Some (mkEdgeCloudZone (mkEdgeCloudZoneId sample_uuid) (mkEdgeCloudZoneName "ZoneA")
             (mkEdgeCloudProvider "ProviderA") (Some (mkEdgeCloudRegion "us-west-1")) ACTIVE))
    None.

Definition ep_port_only_fs : list (string * raw) := [("port", val_obj (RInt 8080))].

Definition ep_two_fs : list (string * raw) :=
  [("domainName", val_obj (RStr "app.example.com"));
   ("ipv4Address", val_obj (RStr "10.0.0.1")); ("port", val_obj (RInt 8080))].

(** Two addresses (one of them malformed) and no port. *)
Definition ep_bad_fs : list (string * raw) :=
  [("domainName", val_obj (RStr "ab")); ("ipv4Address", val_obj (RStr "10.0.0.1"))].

Definition info_fs (endpoints : list raw) (provider : string) : list (string * raw) :=
  [("applicationEndpoints", RList endpoints);
   ("applicationProviderName", RStr provider);
   ("applicationProfileId", val_obj (RStr "123e4567-e89b-12d3-a456-426614174000"))].

Definition zone_empty_name_fs : list (string * raw) :=
  [("edgeCloudZoneId", val_obj (RStr "123e4567-e89b-12d3-a456-426614174000"));
   ("edgeCloudZoneName", val_obj (RStr "")); ("edgeCloudProvider", val_obj (RStr "P"))].

Definition zone_empty_provider_fs : list (string * raw) :=
  [("edge_cloud_zone_id", val_obj (RStr "123e4567-e89b-12d3-a456-426614174000"));
   ("edge_cloud_zone_name", val_obj (RStr "ZoneA")); ("edge_cloud_provider", val_obj (RStr ""))].

(** Whether an optional field is set ([x is not None]). *)
Definition present {A} (o : option A) : bool :=
  match o with Some _ => true | None => false end.

(** The number of address fields set, counted as the specification
    counts them. *)
Definition count_present (d : option DomainName) (v4 : option SingleIpv4Addr)
    (v6 : option SingleIpv6Addr) : nat :=
  length (filter (fun b : bool => b) [present d; present v4; present v6]).

(** A field-level error is located at a field; the cross-field error of
    [model_post_init] is located at the model itself. *)
Definition field_level (x : line_error) : Prop := err_loc x <> [].

Definition opt_ok {A} (p : A -> bool) (o : option A) : bool :=
  match o with Some a => p a | None => true end.

(** What validation guarantees of an [EdgeCloudZone]. *)
Definition zone_valid (z : EdgeCloudZone) : bool :=
  non_empty (zone_name_value (edge_cloud_zone_name z))
  && non_empty (provider_value (edge_cloud_provider z))
  && opt_ok (fun rg => non_empty (region_value rg)) (edge_cloud_region z).

(** What validation guarantees of an [ApplicationEndpoint]. *)
Definition endpoint_valid (ipv4_ok ipv6_ok : string -> bool) (e : ApplicationEndpoint) : bool :=
  opt_ok (fun d => domain_name_ok (domain_name_value d)) (domain_name e)
  && opt_ok (fun a => ipv4_ok (ipv4_value a)) (ipv4_address e)
  && opt_ok (fun a => ipv6_ok (ipv6_value a)) (ipv6_address e)
  && port_ok (port_value (port e))
  && opt_ok zone_valid (edge_cloud_zone e)
  && Nat.eqb (sum_bools (address_fields e)) 1.

(** ** Wire names and field names *)

Inductive endpoint_key :=
| K_domainName | K_ipv4Address | K_ipv6Address | K_port | K_edgeCloudZone
| K_applicationEndpointDescription.

Definition endpoint_alias (k : endpoint_key) : string :=
  match k with
  | K_domainName => "domainName" | K_ipv4Address => "ipv4Address"
  | K_ipv6Address => "ipv6Address" | K_port => "port"
  | K_edgeCloudZone => "edgeCloudZone"
  | K_applicationEndpointDescription => "applicationEndpointDescription"
  end.

Definition endpoint_name (k : endpoint_key) : string :=
  match k with
  | K_domainName => "domain_name" | K_ipv4Address => "ipv4_address"
  | K_ipv6Address => "ipv6_address" | K_port => "port"
  | K_edgeCloudZone => "edge_cloud_zone"
  | K_applicationEndpointDescription => "application_endpoint_description"
  end.

Definition endpoint_keys : list endpoint_key :=
  [K_domainName; K_ipv4Address; K_ipv6Address; K_port; K_edgeCloudZone;
   K_applicationEndpointDescription].

Inductive info_key :=
| K_applicationEndpoints | K_applicationProviderName | K_applicationDescription
| K_applicationProfileId.

Definition info_alias (k : info_key) : string :=
  match k with
  | K_applicationEndpoints => "applicationEndpoints"
  | K_applicationProviderName => "applicationProviderName"
  | K_applicationDescription => "applicationDescription"
  | K_applicationProfileId => "applicationProfileId"
  end.

Definition info_name (k : info_key) : string :=
  match k with
  | K_applicationEndpoints => "application_endpoints"
  | K_applicationProviderName => "application_provider_name"
  | K_applicationDescription => "application_description"
  | K_applicationProfileId => "application_profile_id"
  end.

Definition info_keys : list info_key :=
  [K_applicationEndpoints; K_applicationProviderName; K_applicationDescription;
   K_applicationProfileId].

Section Spelling.

Context {K : Type} (alias name : K -> string).

(** The input mapping that gives field [k] the value [vals k] (if any),
    under its field name when [by_name k] holds and under its alias
    otherwise. *)
Definition entry (by_name : K -> bool) (vals : K -> option raw) (k : K)
  : list (string * raw) :=
  match vals k with
  | Some v => [(if by_name k then name k else alias k, v)]
  | None => []
  end.

Fixpoint spell (by_name : K -> bool) (vals : K -> option raw) (ks : list K)
  : list (string * raw) :=
  match ks with
  | [] => []
  | k :: ks' => entry by_name vals k ++ spell by_name vals ks'
  end.

End Spelling.

(** Reading an explicit [None] the way an optional field does. *)
Definition none_as_absent (o : option (string * raw)) : option (string * raw) :=
  match o with Some (_, RNone) => None | _ => o end.

Definition endpoint_key_eqb (k1 k2 : endpoint_key) : bool :=
  String.eqb (endpoint_alias k1) (endpoint_alias k2).

(** The errors of one field's validation, none if it succeeded. *)
Definition errors_of {A} (r : result A) : list line_error :=
  match r with Ok _ => [] | ValidationError e => e end.

(** Inputs for the response-model examples. *)
Definition list_a : ApplicationEndpointList.t :=
  ApplicationEndpointList.mk (mkApplicationEndpointListId sample_uuid)
    (mkApplicationEndpointsInfo [ep_ipv4; ep_domain] "TestProvider" None
       (mkApplicationProfileId sample_uuid)).

Definition list_b : ApplicationEndpointList.t :=
  ApplicationEndpointList.mk (mkApplicationEndpointListId 1)
    (mkApplicationEndpointsInfo [] "OtherProvider" (Some "no endpoints yet")
       (mkApplicationProfileId 2)).

(** A domain name, an explicit [None] for [ipv4Address], and a port. *)
Definition null_ipv4_vals (k : endpoint_key) : option raw :=
  match k with
  | K_domainName => Some (val_obj (RStr "app.example.com"))
  | K_ipv4Address => Some RNone
  | K_port => Some (val_obj (RInt 8080))
  | _ => None
  end.

(** The value of a successful validation, [None] on failure. *)
Definition ok_part {A} (r : result A) : option A :=
  match r with Ok a => Some a | ValidationError _ => None end.

(** ** Properties *)

Example ex_domain : domain_name_ok "app.example.com" = true. Proof. reflexivity. Qed.
Example ex_domain_bad : domain_name_ok "example..com" = false. Proof. reflexivity. Qed.
Example ex_ep_ok : is_ok (construct_endpoint
  [("domainName", val_obj (RStr "app.example.com")); ("port", val_obj (RInt 8080));
   ("edgeCloudZone", zone_a)]) = true.
Proof. vm_compute. reflexivity. Qed.
Example ex_ep_none : construct_endpoint [("port", val_obj (RInt 8080))]
  = err [] "value_error" exactly_one_message.
Proof. vm_compute. reflexivity. Qed.

Lemma lookup_field_at_snd alias name fs :
  lookup_field alias name fs = option_map snd (lookup_field_at alias name fs).
Proof.
  unfold lookup_field, lookup_field_at.
  destruct (lookup_key alias fs); [reflexivity |]. destruct (lookup_key name fs); reflexivity.
Qed.

Lemma lookup_field_at_some alias name fs r :
  lookup_field alias name fs = Some r -> exists k, lookup_field_at alias name fs = Some (k, r).
Proof.
  rewrite lookup_field_at_snd. destruct (lookup_field_at alias name fs) as [[k r'] |];
    simpl; intro H; inversion H; subst; eauto.
Qed.

Lemma lookup_field_at_none alias name fs :
  lookup_field alias name fs = None -> lookup_field_at alias name fs = None.
Proof.
  rewrite lookup_field_at_snd. destruct (lookup_field_at alias name fs); simpl; congruence.
Qed.

(** A field read from a value found under either key succeeds exactly
    when the value validates: the key only locates the errors. *)
Lemma required_field_found {A} alias name fs (v : raw -> result A) r a :
  lookup_field alias name fs = Some r ->
  (required_field alias name fs v = Ok a <-> v r = Ok a).
Proof.
  intro H. destruct (lookup_field_at_some _ _ _ _ H) as [k Hk].
  unfold required_field. rewrite Hk.
  destruct (v r); simpl; split; congruence.
Qed.

Lemma required_field_found_bad {A} alias name fs (v : raw -> result A) r :
  lookup_field alias name fs = Some r -> is_ok (v r) = false ->
  is_ok (required_field alias name fs v) = false.
Proof.
  intros H Hv. destruct (lookup_field_at_some _ _ _ _ H) as [k Hk].
  unfold required_field. rewrite Hk. destruct (v r); simpl in *; congruence.
Qed.

Lemma required_field_missing {A} alias name fs (v : raw -> result A) :
  lookup_field alias name fs = None ->
  required_field alias name fs v = err [LKey alias] "missing" "Field required".
Proof. intro H. unfold required_field. rewrite (lookup_field_at_none _ _ _ H). reflexivity. Qed.

Lemma prefix_loc_field_level {A} (l : loc_item) (r : result A) e :
  prefix_loc l r = ValidationError e -> Forall field_level e.
Proof.
  destruct r as [a | e0]; simpl; intro H; inversion H; subst.
  apply Forall_forall. intros x Hx. apply in_map_iff in Hx.
  destruct Hx as [y [<- _]]. unfold field_level; simpl; discriminate.
Qed.

Lemma required_field_level {A} alias name fs (v : raw -> result A) e :
  required_field alias name fs v = ValidationError e -> Forall field_level e.
Proof.
  unfold required_field. destruct (lookup_field_at alias name fs) as [[k r] |].
  - apply prefix_loc_field_level.
  - unfold err; intro H; inversion H; subst.
    constructor; [unfold field_level; simpl; discriminate | constructor].
Qed.

Lemma optional_field_level {A} alias name fs (v : raw -> result A) e :
  optional_field alias name fs v = ValidationError e -> Forall field_level e.
Proof.
  unfold optional_field. destruct (lookup_field_at alias name fs) as [[k r] |];
    [| discriminate].
  destruct r; try discriminate; apply prefix_loc_field_level.
Qed.

Lemma both_level {A B} (P : line_error -> Prop) (ra : result A) (rb : result B) e :
  (forall e1, ra = ValidationError e1 -> Forall P e1) ->
  (forall e2, rb = ValidationError e2 -> Forall P e2) ->
  both ra rb = ValidationError e -> Forall P e.
Proof.
  intros Ha Hb. destruct ra as [a | e1], rb as [b | e2]; simpl; intro H;
    inversion H; subst; auto.
  apply Forall_app; auto.
Qed.

Ltac fields_level :=
  match goal with
  | |- both _ _ = ValidationError _ -> _ =>
      apply both_level; intros ?; fields_level
  | |- optional_field _ _ _ _ = ValidationError _ -> _ => apply optional_field_level
  | |- required_field _ _ _ _ = ValidationError _ -> _ => apply required_field_level
  end.

Lemma ApplicationEndpoint_fields_level ipv4_ok ipv6_ok parse_uuid fs e :
  ApplicationEndpoint_fields ipv4_ok ipv6_ok parse_uuid fs = ValidationError e ->
  Forall field_level e.
Proof. unfold ApplicationEndpoint_fields. fields_level. Qed.

Section EndpointConstruction.

Variable ipv4_ok : string -> bool.
Variable ipv6_ok : string -> bool.
Variable parse_uuid : string -> option Z.

Local Abbreviation fields := (ApplicationEndpoint_fields ipv4_ok ipv6_ok parse_uuid).
Local Abbreviation construct := (construct_ApplicationEndpoint ipv4_ok ipv6_ok parse_uuid).

(** C1: once every field of an [ApplicationEndpoint] has validated,
    construction succeeds (with the built instance) when exactly one of
    [domainName], [ipv4Address], [ipv6Address] is present, and fails when
    zero, two or three are present. *)
Theorem endpoint_exactly_one_address_decides fs d v4 v6 p z desc :
  fields fs = Ok (d, (v4, (v6, (p, (z, desc))))) ->
  (count_present d v4 v6 = 1%nat ->
     construct fs = Ok (mkApplicationEndpoint d v4 v6 p z desc)) /\
  (count_present d v4 v6 <> 1%nat -> is_ok (construct fs) = false).
Proof.
  intro H. unfold construct_ApplicationEndpoint. rewrite H.
  unfold model_post_init, address_fields, sum_bools, count_present.
  destruct d, v4, v6; simpl; split; intro Hc;
    solve [reflexivity | exfalso; apply Hc; reflexivity | discriminate Hc].
Qed.

(** C2: every [ApplicationEndpoint] returned by construction has exactly
    one address field set. *)
Theorem endpoint_constructed_has_one_address fs e :
  construct fs = Ok e ->
  count_present (domain_name e) (ipv4_address e) (ipv6_address e) = 1%nat.
Proof.
  unfold construct_ApplicationEndpoint.
  destruct (fields fs) as [[d [v4 [v6 [p [z desc]]]]] | errs]; [| discriminate].
  unfold model_post_init, address_fields, sum_bools.
  destruct d, v4, v6; simpl; intro H; inversion H; subst; reflexivity.
Qed.

(** C3: when some field of an [ApplicationEndpoint] fails its own
    validation, construction reports exactly the field errors, each located
    at a field, and never the cross-field error of [model_post_init]. *)
Theorem endpoint_field_errors_first fs errs :
  fields fs = ValidationError errs ->
  construct fs = ValidationError errs /\
  Forall field_level errs /\
  ~ In (mk_line_error [] "value_error" exactly_one_message) errs.
Proof.
  intro H. pose proof (ApplicationEndpoint_fields_level _ _ _ _ _ H) as Hl.
  split; [unfold construct_ApplicationEndpoint; rewrite H; reflexivity |].
  split; [exact Hl |].
  intro Hin. rewrite Forall_forall in Hl. apply (Hl _ Hin). reflexivity.
Qed.

(** C4 (as the code has it): when every field validates but the number of
    address fields present is not one, construction fails with a single
    model-level [value_error] whose message is the one [model_post_init]
    raises: "Exactly one of domain_name, ipv4_address, or ipv6_address must
    be provided". *)
Theorem endpoint_cross_field_error_message fs d v4 v6 p z desc :
  fields fs = Ok (d, (v4, (v6, (p, (z, desc))))) ->
  count_present d v4 v6 <> 1%nat ->
  construct fs = err [] "value_error" exactly_one_message.
Proof.
  intros H Hc. unfold construct_ApplicationEndpoint. rewrite H.
  unfold model_post_init, address_fields, sum_bools.
  unfold count_present in Hc.
  destruct d, v4, v6; simpl in *; solve [reflexivity | exfalso; apply Hc; reflexivity].
Qed.

End EndpointConstruction.

Lemma both_not_ok_l {A B} (ra : result A) (rb : result B) :
  is_ok ra = false -> is_ok (both ra rb) = false.
Proof. destruct ra, rb; simpl; congruence. Qed.

Lemma both_not_ok_r {A B} (ra : result A) (rb : result B) :
  is_ok rb = false -> is_ok (both ra rb) = false.
Proof. destruct ra, rb; simpl; congruence. Qed.

Section InfoConstruction.

Variable ipv4_ok : string -> bool.
Variable ipv6_ok : string -> bool.
Variable parse_uuid : string -> option Z.

Local Abbreviation construct_info_ := (construct_ApplicationEndpointsInfo ipv4_ok ipv6_ok parse_uuid).
Local Abbreviation validate_endpoint := (validate_ApplicationEndpoint ipv4_ok ipv6_ok parse_uuid).

Lemma validate_endpoints_from_Forall2 n rs es :
  Forall2 (fun r e => validate_endpoint r = Ok e) rs es ->
  validate_endpoints_from ipv4_ok ipv6_ok parse_uuid n rs = Ok es.
Proof.
  intro H. revert n. induction H as [| r e rs es Hre Hrest IH]; intro n; [reflexivity |].
  simpl. rewrite Hre, IH. reflexivity.
Qed.

(** C5: an [ApplicationEndpointsInfo] whose [applicationEndpoints] is the
    empty list, whose [applicationProviderName] and [applicationProfileId]
    are present and valid (and whose optional [applicationDescription] is
    absent or valid) is constructed, with no endpoint; without
    [applicationProviderName] or without [applicationProfileId]
    construction fails. *)
Theorem info_empty_endpoints_accepted fs pn r_pid pid d :
  lookup_field "applicationEndpoints" "application_endpoints" fs = Some (RList []) ->
  lookup_field "applicationProviderName" "application_provider_name" fs = Some (RStr pn) ->
  lookup_field "applicationProfileId" "application_profile_id" fs = Some r_pid ->
  validate_ApplicationProfileId parse_uuid r_pid = Ok pid ->
  optional_field "applicationDescription" "application_description" fs validate_str = Ok d ->
  construct_info_ fs = Ok (mkApplicationEndpointsInfo [] pn d pid) /\
  (forall fs',
     lookup_field "applicationProviderName" "application_provider_name" fs' = None \/
     lookup_field "applicationProfileId" "application_profile_id" fs' = None ->
     is_ok (construct_info_ fs') = false).
Proof.
  intros He Hpn Hpid Hv Hd. split.
  - unfold construct_ApplicationEndpointsInfo.
    rewrite (proj2 (required_field_found _ _ _ (validate_endpoint_list ipv4_ok ipv6_ok parse_uuid)
                      _ [] He) eq_refl).
    rewrite (proj2 (required_field_found _ _ _ validate_str _ pn Hpn) eq_refl).
    rewrite (proj2 (required_field_found _ _ _ (validate_ApplicationProfileId parse_uuid)
                      _ pid Hpid) Hv), Hd.
    reflexivity.
  - intros fs' Hmiss. unfold construct_ApplicationEndpointsInfo.
    assert (Hb : is_ok (both
      (required_field "applicationEndpoints" "application_endpoints" fs'
         (validate_endpoint_list ipv4_ok ipv6_ok parse_uuid))
      (both (required_field "applicationProviderName" "application_provider_name" fs' validate_str)
         (both (optional_field "applicationDescription" "application_description" fs' validate_str)
            (required_field "applicationProfileId" "application_profile_id" fs'
               (validate_ApplicationProfileId parse_uuid))))) = false).
    { apply both_not_ok_r. destruct Hmiss as [Hm | Hm].
      - apply both_not_ok_l. rewrite (required_field_missing _ _ _ _ Hm). reflexivity.
      - apply both_not_ok_r, both_not_ok_r. rewrite (required_field_missing _ _ _ _ Hm).
        reflexivity. }
    destruct (both _ _) as [[es [pn' [d' pid']]] | e]; [discriminate | reflexivity].
Qed.

(** C6: the endpoints of a constructed [ApplicationEndpointsInfo] are the
    values of the given [applicationEndpoints] elements, one for one and
    in the given order. *)
Theorem info_endpoints_keep_order fs rs es i :
  Forall2 (fun r e => validate_endpoint r = Ok e) rs es ->
  lookup_field "applicationEndpoints" "application_endpoints" fs = Some (RList rs) ->
  construct_info_ fs = Ok i ->
  application_endpoints i = es.
Proof.
  intros H2 Hl. unfold construct_ApplicationEndpointsInfo.
  rewrite (proj2 (required_field_found _ _ _ (validate_endpoint_list ipv4_ok ipv6_ok parse_uuid)
                    _ es Hl) (validate_endpoints_from_Forall2 0 rs es H2)).
  match goal with |- context [both (Ok es) ?rest] =>
    destruct rest as [[pn [d pid]] | e] end;
  simpl; intro H; inversion H; reflexivity.
Qed.

(** C10: [applicationProviderName] has no constraint beyond being a
    string: every string, the empty one included, is accepted when the
    other fields are valid; whereas an [EdgeCloudZone] whose
    [edgeCloudZoneName] or whose [edgeCloudProvider] is the empty string is
    rejected. *)
Theorem info_provider_name_any_string fs s es d pid :
  lookup_field "applicationProviderName" "application_provider_name" fs = Some (RStr s) ->
  required_field "applicationEndpoints" "application_endpoints" fs
    (validate_endpoint_list ipv4_ok ipv6_ok parse_uuid) = Ok es ->
  optional_field "applicationDescription" "application_description" fs validate_str = Ok d ->
  required_field "applicationProfileId" "application_profile_id" fs
    (validate_ApplicationProfileId parse_uuid) = Ok pid ->
  construct_info_ fs = Ok (mkApplicationEndpointsInfo es s d pid) /\
  (forall zfs,
     lookup_field "edgeCloudZoneName" "edge_cloud_zone_name" zfs = Some (RObj [("value", RStr "")])
     \/ lookup_field "edgeCloudProvider" "edge_cloud_provider" zfs = Some (RObj [("value", RStr "")]) ->
     is_ok (validate_EdgeCloudZone parse_uuid (RObj zfs)) = false).
Proof.
  intros Hs He Hd Hp. split.
  - unfold construct_ApplicationEndpointsInfo.
    rewrite He, Hd, Hp.
    rewrite (proj2 (required_field_found _ _ _ validate_str _ s Hs) eq_refl). reflexivity.
  - intros zfs Hz. unfold validate_EdgeCloudZone.
    assert (Hb : is_ok (both
      (required_field "edgeCloudZoneId" "edge_cloud_zone_id" zfs
         (validate_value_model mkEdgeCloudZoneId (validate_uuid parse_uuid)))
      (both (required_field "edgeCloudZoneName" "edge_cloud_zone_name" zfs
               (validate_value_model mkEdgeCloudZoneName (validate_checked_str non_empty)))
         (both (required_field "edgeCloudProvider" "edge_cloud_provider" zfs
                  (validate_value_model mkEdgeCloudProvider (validate_checked_str non_empty)))
            (both (optional_field "edgeCloudRegion" "edge_cloud_region" zfs
                     (validate_value_model mkEdgeCloudRegion (validate_checked_str non_empty)))
               (status_field zfs))))) = false).
    { apply both_not_ok_r. destruct Hz as [Hz | Hz].
      - apply both_not_ok_l. apply (required_field_found_bad _ _ _ _ _ Hz); reflexivity.
      - apply both_not_ok_r, both_not_ok_l.
        apply (required_field_found_bad _ _ _ _ _ Hz); reflexivity. }
    destruct (both _ _) as [[zi [zn [zp [zr zs]]]] | e]; [discriminate | reflexivity].
Qed.

End InfoConstruction.

(** C9: each state-changing handler ([POST] register, [PUT] update,
    [DELETE] deregister), on any input and any store, raises an
    [HTTPException] with status 501 ("not yet implemented") and leaves the
    store as it was. *)
Theorem state_changing_handlers_not_implemented :
  forall (S : Type) (st : S),
  (forall request x_correlator,
     register_application_endpoints S st request x_correlator =
     (Raise (mkHTTPException 501 "Application endpoint registration not yet implemented"), st)) /\
  (forall list_id request x_correlator,
     update_application_endpoint S st list_id request x_correlator =
     (Raise (mkHTTPException 501 "Update application endpoint not yet implemented"), st)) /\
  (forall list_id x_correlator,
     deregister_application_endpoint S st list_id x_correlator =
     (Raise (mkHTTPException 501 "Deregister application endpoint not yet implemented"), st)).
Proof. intros S st. repeat split. Qed.

(** ** Round trip through [model_dump] *)

Lemma both_ok_inv {A B} (ra : result A) (rb : result B) a b :
  both ra rb = Ok (a, b) -> ra = Ok a /\ rb = Ok b.
Proof. destruct ra, rb; simpl; intro H; inversion H; auto. Qed.

Lemma checked_value_model_ok {B} (mk : string -> B) ok r x :
  validate_value_model mk (validate_checked_str ok) r = Ok x ->
  exists s, x = mk s /\ ok s = true.
Proof.
  destruct r; try discriminate. simpl.
  destruct (lookup_key "value" fields) as [v |]; [| discriminate].
  destruct v; try discriminate. simpl.
  destruct (ok s) eqn:E; [| discriminate].
  intro H; inversion H; eauto.
Qed.

Lemma checked_value_model_get {B} (mk : string -> B) (get : B -> string) ok :
  (forall s, get (mk s) = s) ->
  forall r x, validate_value_model mk (validate_checked_str ok) r = Ok x ->
  ok (get x) = true.
Proof.
  intros Hget r x H. destruct (checked_value_model_ok mk ok r x H) as [s [-> Hs]].
  rewrite Hget. exact Hs.
Qed.

Lemma optional_field_ok {A} (P : A -> bool) alias name fs v o :
  (forall r x, v r = Ok x -> P x = true) ->
  optional_field alias name fs v = Ok o -> opt_ok P o = true.
Proof.
  intro Hv. unfold optional_field.
  destruct (lookup_field_at alias name fs) as [[k r] |];
    [| intro H; inversion H; reflexivity].
  destruct r; try (intro H; inversion H; reflexivity);
  destruct (v _) eqn:E; simpl; intro H; inversion H; subst; simpl; eauto.
Qed.

Lemma required_field_ok {A} (P : A -> bool) alias name fs v x :
  (forall r x, v r = Ok x -> P x = true) ->
  required_field alias name fs v = Ok x -> P x = true.
Proof.
  intro Hv. unfold required_field.
  destruct (lookup_field_at alias name fs) as [[k r] |]; [| discriminate].
  destruct (v r) eqn:E; simpl; intro H; inversion H; subst; eauto.
Qed.

Lemma validate_Port_ok r p : validate_Port r = Ok p -> port_ok (port_value p) = true.
Proof.
  destruct r; try discriminate. unfold validate_Port; simpl.
  destruct (lookup_key "value" fields) as [v |]; [| discriminate].
  destruct v; try discriminate. simpl.
  destruct (0 <=? z) eqn:E1; [| discriminate].
  destruct (z <=? 65535) eqn:E2; [| discriminate].
  intro H; inversion H; subst. unfold port_ok; simpl. rewrite E1, E2. reflexivity.
Qed.

Lemma validate_EdgeCloudZone_ok parse_uuid r z :
  validate_EdgeCloudZone parse_uuid r = Ok z -> zone_valid z = true.
Proof.
  destruct r; try discriminate. unfold validate_EdgeCloudZone.
  destruct (both _ _) as [[i [n [p [rg st]]]] | e] eqn:E; [| discriminate].
  intro H; inversion H; subst; clear H.
  apply both_ok_inv in E as [_ E].
  apply both_ok_inv in E as [En E].
  apply both_ok_inv in E as [Ep E].
  apply both_ok_inv in E as [Erg _].
  unfold zone_valid; simpl.
  rewrite (required_field_ok (fun n => non_empty (zone_name_value n)) _ _ _ _ _
             (checked_value_model_get _ _ _ (fun _ => eq_refl)) En).
  rewrite (required_field_ok (fun p => non_empty (provider_value p)) _ _ _ _ _
             (checked_value_model_get _ _ _ (fun _ => eq_refl)) Ep).
  rewrite (optional_field_ok (fun rg => non_empty (region_value rg)) _ _ _ _ _
             (checked_value_model_get _ _ _ (fun _ => eq_refl)) Erg).
  reflexivity.
Qed.

Lemma construct_endpoint_valid ipv4_ok ipv6_ok parse_uuid fs e :
  construct_ApplicationEndpoint ipv4_ok ipv6_ok parse_uuid fs = Ok e ->
  endpoint_valid ipv4_ok ipv6_ok e = true.
Proof.
  unfold construct_ApplicationEndpoint.
  destruct (ApplicationEndpoint_fields _ _ _ fs) as [[d [v4 [v6 [p [z desc]]]]] | errs]
    eqn:E; [| discriminate].
  destruct (model_post_init _) eqn:Epi; [discriminate |].
  intro H; inversion H; subst; clear H.
  unfold ApplicationEndpoint_fields in E.
  apply both_ok_inv in E as [Ed E].
  apply both_ok_inv in E as [E4 E].
  apply both_ok_inv in E as [E6 E].
  apply both_ok_inv in E as [Ep E].
  apply both_ok_inv in E as [Ez _].
  unfold endpoint_valid; simpl.
  rewrite (optional_field_ok (fun d => domain_name_ok (domain_name_value d)) _ _ _ _ _
             (fun r => checked_value_model_get _ _ _ (fun _ => eq_refl) (validate_address_fields r)) Ed).
  rewrite (optional_field_ok (fun a => ipv4_ok (ipv4_value a)) _ _ _ _ _
             (fun r => checked_value_model_get _ _ _ (fun _ => eq_refl) (validate_address_fields r)) E4).
  rewrite (optional_field_ok (fun a => ipv6_ok (ipv6_value a)) _ _ _ _ _
             (fun r => checked_value_model_get _ _ _ (fun _ => eq_refl) (validate_address_fields r)) E6).
  rewrite (required_field_ok (fun p => port_ok (port_value p)) _ _ _ _ _ validate_Port_ok Ep).
  rewrite (optional_field_ok zone_valid _ _ _ _ _ (validate_EdgeCloudZone_ok parse_uuid) Ez).
  unfold model_post_init in Epi. simpl.
  destruct (Nat.eqb _ 1); [reflexivity | discriminate].
Qed.

Lemma zone_roundtrip parse_uuid z :
  zone_valid z = true -> validate_EdgeCloudZone parse_uuid (dump_EdgeCloudZone z) = Ok z.
Proof.
  destruct z as [[i] [n] [p] rg st]. unfold zone_valid. simpl.
  intro H. apply andb_prop in H as [H Hrg]. apply andb_prop in H as [Hn Hp].
  destruct rg as [[rg] |]; simpl in Hrg;
  cbn -[non_empty]; rewrite Hn, Hp; try rewrite Hrg; destruct st; reflexivity.
Qed.

Ltac split_andb :=
  repeat match goal with
  | H : _ && _ = true |- _ => apply andb_prop in H as [? ?]
  end.

Lemma endpoint_roundtrip ipv4_ok ipv6_ok parse_uuid e :
  endpoint_valid ipv4_ok ipv6_ok e = true ->
  construct_ApplicationEndpoint ipv4_ok ipv6_ok parse_uuid (model_dump_ApplicationEndpoint e)
  = Ok e.
Proof.
  destruct e as [d v4 v6 [p] z desc]. unfold endpoint_valid, port_ok. simpl.
  intro H.
  destruct d as [[d] |], v4 as [[a] |], v6 as [[b] |]; simpl in H;
    try (rewrite andb_false_r in H; discriminate);
    split_andb;
    destruct z as [z |], desc as [desc |]; simpl in *;
    unfold construct_ApplicationEndpoint, model_dump_ApplicationEndpoint,
      ApplicationEndpoint_fields, optional_field, required_field, lookup_field;
    cbn -[validate_EdgeCloudZone dump_EdgeCloudZone domain_name_ok];
    try (rewrite zone_roundtrip by assumption);
    repeat match goal with
           | H : ?c = true |- context [?c] => rewrite H
           end;
    reflexivity.
Qed.

Lemma endpoints_roundtrip ipv4_ok ipv6_ok parse_uuid n es :
  Forall (fun e => endpoint_valid ipv4_ok ipv6_ok e = true) es ->
  validate_endpoints_from ipv4_ok ipv6_ok parse_uuid n
    (map (fun e => RObj (model_dump_ApplicationEndpoint e)) es) = Ok es.
Proof.
  intro H. revert n. induction H as [| e es He Hrest IH]; intro n; [reflexivity |].
  simpl. rewrite (endpoint_roundtrip _ _ parse_uuid e He), IH. reflexivity.
Qed.

Lemma info_roundtrip ipv4_ok ipv6_ok parse_uuid i :
  Forall (fun e => endpoint_valid ipv4_ok ipv6_ok e = true) (application_endpoints i) ->
  construct_ApplicationEndpointsInfo ipv4_ok ipv6_ok parse_uuid
    (model_dump_ApplicationEndpointsInfo i) = Ok i.
Proof.
  destruct i as [es pn d [pid]]. simpl. intro H.
  unfold construct_ApplicationEndpointsInfo, model_dump_ApplicationEndpointsInfo,
    required_field, optional_field, lookup_field.
  cbn -[validate_endpoints_from].
  rewrite (endpoints_roundtrip _ _ parse_uuid 0 es H).
  destruct d; reflexivity.
Qed.

Section RoundTrip.

Variable ipv4_ok : string -> bool.
Variable ipv6_ok : string -> bool.
Variable parse_uuid : string -> option Z.

Local Abbreviation construct := (construct_ApplicationEndpoint ipv4_ok ipv6_ok parse_uuid).
Local Abbreviation construct_info_ := (construct_ApplicationEndpointsInfo ipv4_ok ipv6_ok parse_uuid).

(** C7: serialising a constructed [ApplicationEndpoint] with [model_dump]
    and constructing again from the result gives the same endpoint; the
    same holds for a constructed [ApplicationEndpointsInfo] whose
    endpoints were themselves constructed. *)
Theorem model_dump_revalidate_roundtrip :
  (forall fs e, construct fs = Ok e ->
     construct (model_dump_ApplicationEndpoint e) = Ok e) /\
  (forall fs i, construct_info_ fs = Ok i ->
     Forall (fun e => exists fs', construct fs' = Ok e) (application_endpoints i) ->
     construct_info_ (model_dump_ApplicationEndpointsInfo i) = Ok i).
Proof.
  split.
  - intros fs e H. apply endpoint_roundtrip. eapply construct_endpoint_valid. exact H.
  - intros fs i _ Hes. apply info_roundtrip.
    eapply Forall_impl; [| exact Hes].
    intros e [fs' He]. eapply construct_endpoint_valid. exact He.
Qed.

End RoundTrip.

Section SpellingFacts.

Context {K : Type} (alias name : K -> string).

Lemma spell_app by_name vals l1 l2 :
  spell alias name by_name vals (l1 ++ l2) = (spell alias name by_name vals l1 ++ spell alias name by_name vals l2)%list.
Proof. induction l1 as [| k l1 IH]; simpl; [reflexivity | rewrite IH, app_assoc; reflexivity]. Qed.

Lemma lookup_key_app s l1 l2 :
  lookup_key s (l1 ++ l2)%list =
  match lookup_key s l1 with Some v => Some v | None => lookup_key s l2 end.
Proof.
  induction l1 as [| [k v] l1 IH]; simpl; [reflexivity |].
  destruct (String.eqb s k); [reflexivity | exact IH].
Qed.

Lemma lookup_spell_none s by_name vals ks :
  Forall (fun k => s <> alias k /\ s <> name k) ks ->
  lookup_key s (spell alias name by_name vals ks) = None.
Proof.
  induction 1 as [| k ks [Ha Hn] _ IH]; [reflexivity |].
  simpl. rewrite lookup_key_app, IH. unfold entry.
  destruct (vals k); [| reflexivity]. simpl.
  destruct (by_name k).
  - apply String.eqb_neq in Hn. rewrite Hn. reflexivity.
  - apply String.eqb_neq in Ha. rewrite Ha. reflexivity.
Qed.

Lemma lookup_field_spell by_name vals ks1 k ks2 :
  Forall (fun k' => (alias k <> alias k' /\ alias k <> name k')
                    /\ (name k <> alias k' /\ name k <> name k')) (ks1 ++ ks2)%list ->
  lookup_field (alias k) (name k) (spell alias name by_name vals (ks1 ++ k :: ks2)%list) = vals k.
Proof.
  intro H. apply Forall_app in H as [H1 H2].
  assert (Ha1 := Forall_impl _ (fun k' (h : _ /\ _) => proj1 h) H1).
  assert (Hn1 := Forall_impl _ (fun k' (h : _ /\ _) => proj2 h) H1).
  assert (Ha2 := Forall_impl _ (fun k' (h : _ /\ _) => proj1 h) H2).
  assert (Hn2 := Forall_impl _ (fun k' (h : _ /\ _) => proj2 h) H2).
  unfold lookup_field. rewrite spell_app. simpl.
  rewrite !lookup_key_app, !lookup_spell_none by assumption.
  unfold entry. destruct (vals k) as [v |]; [| reflexivity]. simpl.
  destruct (by_name k).
  - destruct (String.eqb (alias k) (name k)); [reflexivity |].
    rewrite String.eqb_refl. reflexivity.
  - rewrite String.eqb_refl. reflexivity.
Qed.

Lemma lookup_field_at_spell by_name vals ks1 k ks2 :
  Forall (fun k' => (alias k <> alias k' /\ alias k <> name k')
                    /\ (name k <> alias k' /\ name k <> name k')) (ks1 ++ ks2)%list ->
  lookup_field_at (alias k) (name k) (spell alias name by_name vals (ks1 ++ k :: ks2)%list)
  = option_map (fun v => (if by_name k then name k else alias k, v)) (vals k).
Proof.
  intro H. apply Forall_app in H as [H1 H2].
  assert (Ha1 := Forall_impl _ (fun k' (h : _ /\ _) => proj1 h) H1).
  assert (Hn1 := Forall_impl _ (fun k' (h : _ /\ _) => proj2 h) H1).
  assert (Ha2 := Forall_impl _ (fun k' (h : _ /\ _) => proj1 h) H2).
  assert (Hn2 := Forall_impl _ (fun k' (h : _ /\ _) => proj2 h) H2).
  unfold lookup_field_at. rewrite spell_app. simpl.
  rewrite !lookup_key_app, !lookup_spell_none by assumption.
  unfold entry. destruct (vals k) as [v |]; [| reflexivity]. simpl.
  destruct (by_name k).
  - destruct (String.eqb (alias k) (name k)) eqn:E.
    + apply String.eqb_eq in E. rewrite E. reflexivity.
    + rewrite String.eqb_refl. reflexivity.
  - rewrite String.eqb_refl. reflexivity.
Qed.

End SpellingFacts.

Ltac lookup_at l1 l2 :=
  refine (lookup_field_spell _ _ _ _ l1 _ l2 _);
  simpl; repeat constructor; discriminate.

Ltac lookup_at_key l1 l2 :=
  refine (lookup_field_at_spell _ _ _ _ l1 _ l2 _);
  simpl; repeat constructor; discriminate.

Lemma endpoint_lookup_spelled by_name vals k :
  lookup_field (endpoint_alias k) (endpoint_name k)
    (spell endpoint_alias endpoint_name by_name vals endpoint_keys) = vals k.
Proof.
  destruct k.
  - lookup_at (@nil endpoint_key)
      [K_ipv4Address; K_ipv6Address; K_port; K_edgeCloudZone; K_applicationEndpointDescription].
  - lookup_at [K_domainName]
      [K_ipv6Address; K_port; K_edgeCloudZone; K_applicationEndpointDescription].
  - lookup_at [K_domainName; K_ipv4Address]
      [K_port; K_edgeCloudZone; K_applicationEndpointDescription].
  - lookup_at [K_domainName; K_ipv4Address; K_ipv6Address]
      [K_edgeCloudZone; K_applicationEndpointDescription].
  - lookup_at [K_domainName; K_ipv4Address; K_ipv6Address; K_port]
      [K_applicationEndpointDescription].
  - lookup_at [K_domainName; K_ipv4Address; K_ipv6Address; K_port; K_edgeCloudZone]
      (@nil endpoint_key).
Qed.

Lemma endpoint_lookup_at_spelled by_name vals k :
  lookup_field_at (endpoint_alias k) (endpoint_name k)
    (spell endpoint_alias endpoint_name by_name vals endpoint_keys)
  = option_map (fun v => (if by_name k then endpoint_name k else endpoint_alias k, v)) (vals k).
Proof.
  destruct k.
  - lookup_at_key (@nil endpoint_key)
      [K_ipv4Address; K_ipv6Address; K_port; K_edgeCloudZone; K_applicationEndpointDescription].
  - lookup_at_key [K_domainName]
      [K_ipv6Address; K_port; K_edgeCloudZone; K_applicationEndpointDescription].
  - lookup_at_key [K_domainName; K_ipv4Address]
      [K_port; K_edgeCloudZone; K_applicationEndpointDescription].
  - lookup_at_key [K_domainName; K_ipv4Address; K_ipv6Address]
      [K_edgeCloudZone; K_applicationEndpointDescription].
  - lookup_at_key [K_domainName; K_ipv4Address; K_ipv6Address; K_port]
      [K_applicationEndpointDescription].
  - lookup_at_key [K_domainName; K_ipv4Address; K_ipv6Address; K_port; K_edgeCloudZone]
      (@nil endpoint_key).
Qed.

Lemma info_lookup_spelled by_name vals k :
  lookup_field (info_alias k) (info_name k)
    (spell info_alias info_name by_name vals info_keys) = vals k.
Proof.
  destruct k.
  - lookup_at (@nil info_key)
      [K_applicationProviderName; K_applicationDescription; K_applicationProfileId].
  - lookup_at [K_applicationEndpoints] [K_applicationDescription; K_applicationProfileId].
  - lookup_at [K_applicationEndpoints; K_applicationProviderName] [K_applicationProfileId].
  - lookup_at [K_applicationEndpoints; K_applicationProviderName; K_applicationDescription]
      (@nil info_key).
Qed.

(** Construction reads its input only through the field lookups. *)
Lemma ok_part_eq_Ok {A} (r : result A) a : ok_part r = Some a <-> r = Ok a.
Proof. destruct r; simpl; split; congruence. Qed.

Lemma ok_part_both {A B} (ra : result A) (rb : result B) :
  ok_part (both ra rb)
  = match ok_part ra, ok_part rb with Some a, Some b => Some (a, b) | _, _ => None end.
Proof. destruct ra, rb; reflexivity. Qed.

Lemma ok_part_prefix {A} l (r : result A) : ok_part (prefix_loc l r) = ok_part r.
Proof. destruct r; reflexivity. Qed.

Lemma ok_part_map {A B} (f : A -> B) (r : result A) :
  ok_part (map_result f r) = option_map f (ok_part r).
Proof. destruct r; reflexivity. Qed.

(** Whether a field reads successfully, and what, depends only on the
    value found, not on the key it was found under. *)
Lemma required_field_ok_part {A} alias name fs (v : raw -> result A) :
  ok_part (required_field alias name fs v)
  = match lookup_field alias name fs with Some r => ok_part (v r) | None => None end.
Proof.
  rewrite lookup_field_at_snd. unfold required_field.
  destruct (lookup_field_at alias name fs) as [[k r] |]; [apply ok_part_prefix | reflexivity].
Qed.

Lemma optional_field_ok_part {A} alias name fs (v : raw -> result A) :
  ok_part (optional_field alias name fs v)
  = match lookup_field alias name fs with
    | None => Some None
    | Some RNone => Some None
    | Some r => option_map Some (ok_part (v r))
    end.
Proof.
  rewrite lookup_field_at_snd. unfold optional_field.
  destruct (lookup_field_at alias name fs) as [[k r] |]; [| reflexivity].
  destruct r; cbn [option_map snd]; rewrite ?ok_part_prefix, ?ok_part_map; reflexivity.
Qed.

Lemma endpoint_construct_ok_by_lookups ipv4_ok ipv6_ok parse_uuid fs1 fs2 :
  (forall k, lookup_field (endpoint_alias k) (endpoint_name k) fs1
             = lookup_field (endpoint_alias k) (endpoint_name k) fs2) ->
  ok_part (construct_ApplicationEndpoint ipv4_ok ipv6_ok parse_uuid fs1)
  = ok_part (construct_ApplicationEndpoint ipv4_ok ipv6_ok parse_uuid fs2).
Proof.
  intro H.
  pose proof (H K_domainName) as H1; pose proof (H K_ipv4Address) as H2;
  pose proof (H K_ipv6Address) as H3; pose proof (H K_port) as H4;
  pose proof (H K_edgeCloudZone) as H5;
  pose proof (H K_applicationEndpointDescription) as H6;
  cbn [endpoint_alias endpoint_name] in H1, H2, H3, H4, H5, H6.
  assert (F : ok_part (ApplicationEndpoint_fields ipv4_ok ipv6_ok parse_uuid fs1)
              = ok_part (ApplicationEndpoint_fields ipv4_ok ipv6_ok parse_uuid fs2)).
  { unfold ApplicationEndpoint_fields.
    rewrite !ok_part_both, !optional_field_ok_part, !required_field_ok_part.
    rewrite H1, H2, H3, H4, H5, H6. reflexivity. }
  unfold construct_ApplicationEndpoint.
  destruct (ApplicationEndpoint_fields ipv4_ok ipv6_ok parse_uuid fs1)
    as [[d [v4 [v6 [p [z desc]]]]] | e1],
    (ApplicationEndpoint_fields ipv4_ok ipv6_ok parse_uuid fs2)
    as [[d' [v4' [v6' [p' [z' desc']]]]] | e2];
    simpl in F; try discriminate; [inversion F; reflexivity | reflexivity].
Qed.

Lemma info_construct_ok_by_lookups ipv4_ok ipv6_ok parse_uuid fs1 fs2 :
  (forall k, lookup_field (info_alias k) (info_name k) fs1
             = lookup_field (info_alias k) (info_name k) fs2) ->
  ok_part (construct_ApplicationEndpointsInfo ipv4_ok ipv6_ok parse_uuid fs1)
  = ok_part (construct_ApplicationEndpointsInfo ipv4_ok ipv6_ok parse_uuid fs2).
Proof.
  intro H.
  pose proof (H K_applicationEndpoints) as H1; pose proof (H K_applicationProviderName) as H2;
  pose proof (H K_applicationDescription) as H3; pose proof (H K_applicationProfileId) as H4;
  cbn [info_alias info_name] in H1, H2, H3, H4.
  unfold construct_ApplicationEndpointsInfo.
  match goal with
  | |- ok_part (match ?r1 with _ => _ end) = ok_part (match ?r2 with _ => _ end) =>
      assert (F : ok_part r1 = ok_part r2);
      [ rewrite !ok_part_both, !optional_field_ok_part, !required_field_ok_part;
        rewrite H1, H2, H3, H4; reflexivity
      | destruct r1 as [[es [pn [d pid]]] | e1], r2 as [[es' [pn' [d' pid']]] | e2];
        simpl in F; try discriminate; [inversion F; reflexivity | reflexivity] ]
  end.
Qed.

(** C8: an [ApplicationEndpoint] or [ApplicationEndpointsInfo] input may
    spell each field by its wire name ([domainName], [ipv4Address],
    [ipv6Address], [edgeCloudZone], [applicationEndpointDescription],
    [applicationEndpoints], [applicationProviderName],
    [applicationDescription], [applicationProfileId]) or by its field name
    ([domain_name], ...): whatever the choice per field, each field reads
    the value given for it, and construction succeeds, with the same
    value, exactly when it does with the wire names throughout.  (The
    errors of an invalid input are located at the keys used, so they may
    differ with the spelling.) *)
Theorem wire_and_field_names_bind_same_field :
  forall ipv4_ok ipv6_ok parse_uuid,
  (forall by_name vals,
     (forall k, lookup_field (endpoint_alias k) (endpoint_name k)
                  (spell endpoint_alias endpoint_name by_name vals endpoint_keys) = vals k) /\
     (forall e,
        construct_ApplicationEndpoint ipv4_ok ipv6_ok parse_uuid
          (spell endpoint_alias endpoint_name by_name vals endpoint_keys) = Ok e
        <-> construct_ApplicationEndpoint ipv4_ok ipv6_ok parse_uuid
              (spell endpoint_alias endpoint_name (fun _ => false) vals endpoint_keys) = Ok e)) /\
  (forall by_name vals,
     (forall k, lookup_field (info_alias k) (info_name k)
                  (spell info_alias info_name by_name vals info_keys) = vals k) /\
     (forall i,
        construct_ApplicationEndpointsInfo ipv4_ok ipv6_ok parse_uuid
          (spell info_alias info_name by_name vals info_keys) = Ok i
        <-> construct_ApplicationEndpointsInfo ipv4_ok ipv6_ok parse_uuid
              (spell info_alias info_name (fun _ => false) vals info_keys) = Ok i)).
Proof.
  intros ipv4_ok ipv6_ok parse_uuid. split; intros by_name vals; split.
  - apply endpoint_lookup_spelled.
  - intro e.
    assert (Heq := endpoint_construct_ok_by_lookups ipv4_ok ipv6_ok parse_uuid
                     (spell endpoint_alias endpoint_name by_name vals endpoint_keys)
                     (spell endpoint_alias endpoint_name (fun _ => false) vals endpoint_keys)
                     ltac:(intro k; rewrite !endpoint_lookup_spelled; reflexivity)).
    split; intro H; apply ok_part_eq_Ok; apply ok_part_eq_Ok in H; congruence.
  - apply info_lookup_spelled.
  - intro i.
    assert (Heq := info_construct_ok_by_lookups ipv4_ok ipv6_ok parse_uuid
                     (spell info_alias info_name by_name vals info_keys)
                     (spell info_alias info_name (fun _ => false) vals info_keys)
                     ltac:(intro k; rewrite !info_lookup_spelled; reflexivity)).
    split; intro H; apply ok_part_eq_Ok; apply ok_part_eq_Ok in H; congruence.
Qed.

(** ** The claims at concrete inputs *)

Lemma endpoint_exactly_one_address_decides_witness :
  construct_endpoint ep_domain_fs = Ok ep_domain /\
  is_ok (construct_endpoint ep_port_only_fs) = false /\
  is_ok (construct_endpoint ep_two_fs) = false.
Proof.
  split; [| split].
  - apply (proj1 (endpoint_exactly_one_address_decides sample_ipv4_ok sample_ipv6_ok
                    sample_parse_uuid ep_domain_fs _ _ _ _ _ _ ltac:(vm_compute; reflexivity))).
    reflexivity.
  - apply (proj2 (endpoint_exactly_one_address_decides sample_ipv4_ok sample_ipv6_ok
                    sample_parse_uuid ep_port_only_fs None None None (mkPort 8080) None None
                    ltac:(vm_compute; reflexivity))).
    discriminate.
  - apply (proj2 (endpoint_exactly_one_address_decides sample_ipv4_ok sample_ipv6_ok
                    sample_parse_uuid ep_two_fs (Some (mkDomainName "app.example.com"))
                    (Some (mkSingleIpv4Addr "10.0.0.1")) None (mkPort 8080) None None
                    ltac:(vm_compute; reflexivity))).
    discriminate.
Defined.

Lemma endpoint_constructed_has_one_address_witness :
  construct_endpoint ep_ipv4_fs = Ok ep_ipv4 /\
  count_present (domain_name ep_ipv4) (ipv4_address ep_ipv4) (ipv6_address ep_ipv4) = 1%nat.
Proof.
  assert (H : construct_endpoint ep_ipv4_fs = Ok ep_ipv4) by (vm_compute; reflexivity).
  split; [exact H |].
  exact (endpoint_constructed_has_one_address sample_ipv4_ok sample_ipv6_ok sample_parse_uuid
           ep_ipv4_fs ep_ipv4 H).
Defined.

Lemma endpoint_field_errors_first_witness :
  construct_endpoint ep_bad_fs =
    ValidationError [mk_line_error [LKey "domainName"; LKey "value"] "value_error"
                       "Value error, invalid format";
                     mk_line_error [LKey "port"] "missing" "Field required"] /\
  ~ In (mk_line_error [] "value_error" exactly_one_message)
      [mk_line_error [LKey "domainName"; LKey "value"] "value_error"
         "Value error, invalid format";
       mk_line_error [LKey "port"] "missing" "Field required"].
Proof.
  destruct (endpoint_field_errors_first sample_ipv4_ok sample_ipv6_ok sample_parse_uuid
              ep_bad_fs _ ltac:(vm_compute; reflexivity)) as [H1 [_ H3]].
  split; [exact H1 | exact H3].
Defined.

(** The code's message is not the one of claim C4. *)
Lemma endpoint_cross_field_message_counterexample :
  construct_endpoint ep_port_only_fs = err [] "value_error" exactly_one_message /\
  construct_endpoint ep_port_only_fs
    <> err [] "value_error" "exactly one address field required" /\
  construct_endpoint ep_port_only_fs
    <> err [] "value_error" "Value error, exactly one address field required".
Proof.
  split; [vm_compute; reflexivity |].
  split; vm_compute; discriminate.
Qed.

Lemma endpoint_cross_field_error_message_witness :
  construct_endpoint ep_two_fs = err [] "value_error" exactly_one_message.
Proof.
  apply (endpoint_cross_field_error_message sample_ipv4_ok sample_ipv6_ok sample_parse_uuid
           ep_two_fs (Some (mkDomainName "app.example.com")) (Some (mkSingleIpv4Addr "10.0.0.1"))
           None (mkPort 8080) None None ltac:(vm_compute; reflexivity)).
  vm_compute. discriminate.
Defined.

Lemma info_empty_endpoints_accepted_witness :
  construct_info (info_fs [] "TestProvider")
    = Ok (mkApplicationEndpointsInfo [] "TestProvider" None
            (mkApplicationProfileId sample_uuid)) /\
  is_ok (construct_info [("applicationEndpoints", RList []);
                         ("applicationProviderName", RStr "TestProvider")]) = false.
Proof.
  destruct (info_empty_endpoints_accepted sample_ipv4_ok sample_ipv6_ok sample_parse_uuid
              (info_fs [] "TestProvider") "TestProvider"
              (val_obj (RStr "123e4567-e89b-12d3-a456-426614174000"))
              (mkApplicationProfileId sample_uuid) None
              ltac:(reflexivity) ltac:(reflexivity) ltac:(reflexivity)
              ltac:(vm_compute; reflexivity) ltac:(reflexivity)) as [H1 H2].
  split; [exact H1 |]. apply H2. right. reflexivity.
Defined.

Lemma info_endpoints_keep_order_witness :
  construct_info (info_fs [REndpoint ep_ipv4; REndpoint ep_domain] "TestProvider")
    = Ok (mkApplicationEndpointsInfo [ep_ipv4; ep_domain] "TestProvider" None
            (mkApplicationProfileId sample_uuid)) /\
  application_endpoints (mkApplicationEndpointsInfo [ep_ipv4; ep_domain] "TestProvider" None
                           (mkApplicationProfileId sample_uuid)) = [ep_ipv4; ep_domain].
Proof.
  assert (H : construct_info (info_fs [REndpoint ep_ipv4; REndpoint ep_domain] "TestProvider")
                = Ok (mkApplicationEndpointsInfo [ep_ipv4; ep_domain] "TestProvider" None
                        (mkApplicationProfileId sample_uuid))) by (vm_compute; reflexivity).
  split; [exact H |].
  exact (info_endpoints_keep_order sample_ipv4_ok sample_ipv6_ok sample_parse_uuid
           (info_fs [REndpoint ep_ipv4; REndpoint ep_domain] "TestProvider")
           [REndpoint ep_ipv4; REndpoint ep_domain] [ep_ipv4; ep_domain] _
           ltac:(repeat constructor) ltac:(reflexivity) H).
Defined.

Lemma model_dump_revalidate_roundtrip_witness :
  construct_endpoint (model_dump_ApplicationEndpoint ep_ipv4) = Ok ep_ipv4 /\
  construct_info (model_dump_ApplicationEndpointsInfo
     (mkApplicationEndpointsInfo [ep_ipv4; ep_domain] "TestProvider" None
        (mkApplicationProfileId sample_uuid)))
  = Ok (mkApplicationEndpointsInfo [ep_ipv4; ep_domain] "TestProvider" None
          (mkApplicationProfileId sample_uuid)).
Proof.
  destruct (model_dump_revalidate_roundtrip sample_ipv4_ok sample_ipv6_ok sample_parse_uuid)
    as [He Hi].
  split.
  - apply (He ep_ipv4_fs). vm_compute. reflexivity.
  - apply (Hi (info_fs [REndpoint ep_ipv4; REndpoint ep_domain] "TestProvider")).
    + vm_compute. reflexivity.
    + constructor; [exists ep_ipv4_fs; vm_compute; reflexivity |].
      constructor; [exists ep_domain_fs; vm_compute; reflexivity | constructor].
Defined.

Lemma info_provider_name_any_string_witness :
  construct_info (info_fs [] "")
    = Ok (mkApplicationEndpointsInfo [] "" None (mkApplicationProfileId sample_uuid)) /\
  is_ok (validate_EdgeCloudZone sample_parse_uuid (RObj zone_empty_name_fs)) = false /\
  is_ok (validate_EdgeCloudZone sample_parse_uuid (RObj zone_empty_provider_fs)) = false.
Proof.
  destruct (info_provider_name_any_string sample_ipv4_ok sample_ipv6_ok sample_parse_uuid
              (info_fs [] "") "" [] None (mkApplicationProfileId sample_uuid)
              ltac:(reflexivity) ltac:(reflexivity) ltac:(reflexivity)
              ltac:(vm_compute; reflexivity)) as [H1 H2].
  split; [exact H1 | split; apply H2; [left | right]; reflexivity].
Defined.

(** ** Response models and nested validation *)

Local Open Scope list_scope.

Lemma both_errors_l {A B} (ra : result A) (rb : result B) e :
  ra = ValidationError e -> both ra rb = ValidationError (e ++ errors_of rb).
Proof. intros ->. destruct rb; simpl; rewrite ?app_nil_r; reflexivity. Qed.

Lemma validate_list_from_bad {A} (v : raw -> result A) i rs1 r rs2 e :
  v r = ValidationError e ->
  exists errs, validate_list_from v i (rs1 ++ r :: rs2) = ValidationError errs /\
    forall x, In x e ->
      In (mk_line_error (LIdx (i + length rs1)%nat :: err_loc x) (err_type x) (err_msg x)) errs.
Proof.
  intro Hv. revert i. induction rs1 as [| r1 rs1 IH]; intro i.
  - cbn [app validate_list_from]. rewrite (both_errors_l _ _ _ (f_equal (prefix_loc (LIdx i)) Hv)).
    eexists; split; [reflexivity |]. intros x Hx. rewrite Nat.add_0_r.
    apply in_or_app; left.
    exact (in_map (fun x => mk_line_error (LIdx i :: err_loc x) (err_type x) (err_msg x)) e x Hx).
  - destruct (IH (S i)) as [errs [Heq Hin]]. cbn [app validate_list_from]. rewrite Heq.
    destruct (prefix_loc (LIdx i) (v r1)); cbn [both map_result]; eexists; split;
      try reflexivity; intros x Hx;
      cbn [length]; rewrite Nat.add_succ_r.
    + exact (Hin x Hx).
    + apply in_or_app; right. exact (Hin x Hx).
Qed.

Lemma validate_endpoints_from_as_list ipv4_ok ipv6_ok parse_uuid i l :
  validate_endpoints_from ipv4_ok ipv6_ok parse_uuid i l
  = validate_list_from (validate_ApplicationEndpoint ipv4_ok ipv6_ok parse_uuid) i l.
Proof.
  revert i. induction l as [| r l IH]; intro i; [reflexivity |].
  cbn [validate_endpoints_from validate_list_from]. rewrite IH. reflexivity.
Qed.

Lemma optional_field_none_as_absent {A} alias name fs (v : raw -> result A) :
  optional_field alias name fs v
  = match none_as_absent (lookup_field_at alias name fs) with
    | None => Ok None
    | Some (k, r) => prefix_loc (LKey k) (map_result Some (v r))
    end.
Proof. unfold optional_field. destruct (lookup_field_at alias name fs) as [[k []] |]; reflexivity. Qed.

Lemma endpoint_construct_by_normalised_lookups ipv4_ok ipv6_ok parse_uuid fs1 fs2 :
  (forall k, k <> K_port ->
     none_as_absent (lookup_field_at (endpoint_alias k) (endpoint_name k) fs1)
     = none_as_absent (lookup_field_at (endpoint_alias k) (endpoint_name k) fs2)) ->
  lookup_field_at "port" "port" fs1 = lookup_field_at "port" "port" fs2 ->
  construct_ApplicationEndpoint ipv4_ok ipv6_ok parse_uuid fs1
  = construct_ApplicationEndpoint ipv4_ok ipv6_ok parse_uuid fs2.
Proof.
  intros H Hp.
  pose proof (H K_domainName ltac:(discriminate)) as H1;
  pose proof (H K_ipv4Address ltac:(discriminate)) as H2;
  pose proof (H K_ipv6Address ltac:(discriminate)) as H3;
  pose proof (H K_edgeCloudZone ltac:(discriminate)) as H5;
  pose proof (H K_applicationEndpointDescription ltac:(discriminate)) as H6;
  cbn [endpoint_alias endpoint_name] in H1, H2, H3, H5, H6.
  unfold construct_ApplicationEndpoint, ApplicationEndpoint_fields.
  rewrite !optional_field_none_as_absent. rewrite H1, H2, H3, H5, H6.
  unfold required_field. rewrite Hp. reflexivity.
Qed.

Lemma endpoint_list_dump_roundtrip ipv4_ok ipv6_ok parse_uuid x :
  Forall (fun e => endpoint_valid ipv4_ok ipv6_ok e = true)
    (application_endpoints (ApplicationEndpointList.application_endpoints_info x)) ->
  validate_ApplicationEndpointList ipv4_ok ipv6_ok parse_uuid
    (RObj (model_dump_ApplicationEndpointList x)) = Ok x.
Proof.
  destruct x as [[lid] info]. cbn [ApplicationEndpointList.application_endpoints_info].
  intro H.
  unfold validate_ApplicationEndpointList, construct_ApplicationEndpointList,
    model_dump_ApplicationEndpointList, required_field, lookup_field.
  cbn -[construct_ApplicationEndpointsInfo model_dump_ApplicationEndpointsInfo].
  rewrite (info_roundtrip _ _ parse_uuid info H). reflexivity.
Qed.

Section ModelFacts.

Variable ipv4_ok : string -> bool.
Variable ipv6_ok : string -> bool.
Variable parse_uuid : string -> option Z.

(** Extra: an [ApplicationEndpointList] whose endpoints are valid comes
    back unchanged from its [model_dump] validated again. *)
Theorem endpoint_list_model_dump_roundtrip x :
  Forall (fun e => endpoint_valid ipv4_ok ipv6_ok e = true)
    (application_endpoints (ApplicationEndpointList.application_endpoints_info x)) ->
  validate_ApplicationEndpointList ipv4_ok ipv6_ok parse_uuid
    (RObj (model_dump_ApplicationEndpointList x)) = Ok x.
Proof. apply endpoint_list_dump_roundtrip. Qed.

(** Extra: the [GetApplicationEndpointsResponse] root list dumps and
    validates back to the same lists, in order. *)
Theorem get_response_model_dump_roundtrip l :
  Forall (fun x => Forall (fun e => endpoint_valid ipv4_ok ipv6_ok e = true)
            (application_endpoints (ApplicationEndpointList.application_endpoints_info x))) l ->
  validate_GetApplicationEndpointsResponse ipv4_ok ipv6_ok parse_uuid
    (model_dump_GetApplicationEndpointsResponse l) = Ok l.
Proof.
  intro H. unfold validate_GetApplicationEndpointsResponse,
    model_dump_GetApplicationEndpointsResponse.
  generalize 0%nat. induction H as [| x l Hx Hl IH]; intro i; [reflexivity |].
  cbn [map validate_list_from]. rewrite (endpoint_list_dump_roundtrip _ _ _ x Hx), IH.
  reflexivity.
Qed.

(** Extra: one invalid element anywhere in a [GetApplicationEndpointsResponse]
    rejects the whole response, and each of its errors is reported at its
    index. *)
Theorem get_response_rejects_bad_element rs1 r rs2 e :
  validate_ApplicationEndpointList ipv4_ok ipv6_ok parse_uuid r = ValidationError e ->
  exists errs,
    validate_GetApplicationEndpointsResponse ipv4_ok ipv6_ok parse_uuid
      (RList (rs1 ++ r :: rs2)) = ValidationError errs /\
    forall x, In x e ->
      In (mk_line_error (LIdx (length rs1) :: err_loc x) (err_type x) (err_msg x)) errs.
Proof. intro H. exact (validate_list_from_bad _ 0 rs1 r rs2 e H). Qed.

(** Extra: one invalid endpoint anywhere in the endpoint list rejects the
    whole [ApplicationEndpointsInfo]; each of its errors is reported under
    the key the list was given by ([applicationEndpoints], or
    [application_endpoints] when the wire name is absent), at the
    endpoint's index. *)
Theorem info_rejects_bad_endpoint fs key rs1 r rs2 e :
  (key = "applicationEndpoints" /\
   lookup_key "applicationEndpoints" fs = Some (RList (rs1 ++ r :: rs2))) \/
  (key = "application_endpoints" /\ lookup_key "applicationEndpoints" fs = None /\
   lookup_key "application_endpoints" fs = Some (RList (rs1 ++ r :: rs2))) ->
  validate_ApplicationEndpoint ipv4_ok ipv6_ok parse_uuid r = ValidationError e ->
  exists errs,
    construct_ApplicationEndpointsInfo ipv4_ok ipv6_ok parse_uuid fs = ValidationError errs /\
    forall x, In x e ->
      In (mk_line_error (LKey key :: LIdx (length rs1) :: err_loc x)
            (err_type x) (err_msg x)) errs.
Proof.
  intros Hk Hr.
  assert (Hl : lookup_field_at "applicationEndpoints" "application_endpoints" fs
               = Some (key, RList (rs1 ++ r :: rs2))).
  { unfold lookup_field_at.
    destruct Hk as [[-> H] | [-> [H0 H]]]; [rewrite H | rewrite H0, H]; reflexivity. }
  destruct (validate_list_from_bad _ 0 rs1 r rs2 e Hr) as [errs [Heq Hin]].
  set (f := fun x : line_error =>
              mk_line_error (LKey key :: err_loc x) (err_type x) (err_msg x)).
  assert (H1 : required_field "applicationEndpoints" "application_endpoints" fs
                 (validate_endpoint_list ipv4_ok ipv6_ok parse_uuid)
               = ValidationError (map f errs)).
  { unfold required_field. rewrite Hl. unfold validate_endpoint_list.
    rewrite validate_endpoints_from_as_list, Heq. reflexivity. }
  unfold construct_ApplicationEndpointsInfo. rewrite (both_errors_l _ _ _ H1).
  eexists; split; [reflexivity |]. intros x Hx. apply in_or_app; left.
  exact (in_map f errs _ (Hin x Hx)).
Qed.

(** Extra: for an optional field of [ApplicationEndpoint] (all but
    [port]), an explicit [None] gives the same result as leaving the field
    out. *)
Theorem endpoint_null_same_as_omitted by_name vals k :
  k <> K_port -> vals k = Some RNone ->
  construct_ApplicationEndpoint ipv4_ok ipv6_ok parse_uuid
    (spell endpoint_alias endpoint_name by_name vals endpoint_keys)
  = construct_ApplicationEndpoint ipv4_ok ipv6_ok parse_uuid
      (spell endpoint_alias endpoint_name by_name
         (fun k' => if endpoint_key_eqb k' k then None else vals k') endpoint_keys).
Proof.
  intros Hk Hv. apply endpoint_construct_by_normalised_lookups.
  - intros k' _. rewrite !endpoint_lookup_at_spelled. cbv beta.
    destruct (endpoint_key_eqb k' k) eqn:E; [| reflexivity].
    assert (k' = k) as -> by (destruct k', k; try reflexivity; discriminate E).
    rewrite Hv. reflexivity.
  - pose proof (endpoint_lookup_at_spelled by_name vals K_port) as P1.
    pose proof (endpoint_lookup_at_spelled by_name
                  (fun k' => if endpoint_key_eqb k' k then None else vals k') K_port) as P2.
    cbn [endpoint_alias endpoint_name] in P1, P2. rewrite P1, P2.
    destruct k; try (exfalso; apply Hk; reflexivity); reflexivity.
Qed.

End ModelFacts.

(** ** The further properties at concrete inputs *)

Lemma endpoint_list_model_dump_roundtrip_witness :
  validate_ApplicationEndpointList sample_ipv4_ok sample_ipv6_ok sample_parse_uuid
    (RObj (model_dump_ApplicationEndpointList list_a)) = Ok list_a.
Proof.
  apply (endpoint_list_model_dump_roundtrip sample_ipv4_ok sample_ipv6_ok sample_parse_uuid).
  vm_compute. repeat constructor.
Defined.

Lemma get_response_model_dump_roundtrip_witness :
  validate_GetApplicationEndpointsResponse sample_ipv4_ok sample_ipv6_ok sample_parse_uuid
    (model_dump_GetApplicationEndpointsResponse [list_a; list_b]) = Ok [list_a; list_b].
Proof.
  apply (get_response_model_dump_roundtrip sample_ipv4_ok sample_ipv6_ok sample_parse_uuid).
  vm_compute. repeat constructor.
Defined.

Lemma get_response_rejects_bad_element_witness :
  exists errs,
    validate_GetApplicationEndpointsResponse sample_ipv4_ok sample_ipv6_ok sample_parse_uuid
      (RList ([RObj (model_dump_ApplicationEndpointList list_a)] ++ RObj [] :: [])%list)
    = ValidationError errs /\
    forall x, In x [mk_line_error [LKey "applicationEndpointListId"] "missing" "Field required";
                    mk_line_error [LKey "applicationEndpointsInfo"] "missing" "Field required"] ->
      In (mk_line_error (LIdx (length [RObj (model_dump_ApplicationEndpointList list_a)])
                           :: err_loc x) (err_type x) (err_msg x)) errs.
Proof.
  apply (get_response_rejects_bad_element sample_ipv4_ok sample_ipv6_ok sample_parse_uuid
           [RObj (model_dump_ApplicationEndpointList list_a)] (RObj []) []).
  vm_compute. reflexivity.
Defined.

Lemma info_rejects_bad_endpoint_witness :
  exists errs,
    construct_ApplicationEndpointsInfo sample_ipv4_ok sample_ipv6_ok sample_parse_uuid
      [("application_endpoints", RList [REndpoint ep_domain; RObj ep_port_only_fs]);
       ("applicationProviderName", RStr "TestProvider");
       ("applicationProfileId", val_obj (RStr "123e4567-e89b-12d3-a456-426614174000"))]
    = ValidationError errs /\
    forall x, In x [mk_line_error [] "value_error" exactly_one_message] ->
      In (mk_line_error (LKey "application_endpoints" :: LIdx (length [REndpoint ep_domain])
                           :: err_loc x) (err_type x) (err_msg x)) errs.
Proof.
  apply (info_rejects_bad_endpoint sample_ipv4_ok sample_ipv6_ok sample_parse_uuid
           [("application_endpoints", RList [REndpoint ep_domain; RObj ep_port_only_fs]);
            ("applicationProviderName", RStr "TestProvider");
            ("applicationProfileId", val_obj (RStr "123e4567-e89b-12d3-a456-426614174000"))]
           "application_endpoints" [REndpoint ep_domain] (RObj ep_port_only_fs) []).
  - right. split; [reflexivity | split; reflexivity].
  - vm_compute. reflexivity.
Defined.

Lemma endpoint_null_same_as_omitted_witness :
  construct_ApplicationEndpoint sample_ipv4_ok sample_ipv6_ok sample_parse_uuid
    (spell endpoint_alias endpoint_name (fun _ => false) null_ipv4_vals endpoint_keys)
  = construct_ApplicationEndpoint sample_ipv4_ok sample_ipv6_ok sample_parse_uuid
      (spell endpoint_alias endpoint_name (fun _ => false)
         (fun k' => if endpoint_key_eqb k' K_ipv4Address then None else null_ipv4_vals k')
         endpoint_keys) /\
  construct_ApplicationEndpoint sample_ipv4_ok sample_ipv6_ok sample_parse_uuid
    (spell endpoint_alias endpoint_name (fun _ => false) null_ipv4_vals endpoint_keys)
  = Ok ep_domain.
Proof.
  split.
  - apply (endpoint_null_same_as_omitted sample_ipv4_ok sample_ipv6_ok sample_parse_uuid
             (fun _ => false) null_ipv4_vals K_ipv4Address).
    + discriminate.
    + reflexivity.
  - vm_compute. reflexivity.
Defined.
